(** * GitGlue: the [<github-repos>] widget, its data transforms and its render pass

    The repository ships three variants of one custom element:
    - [Basic]    : profile header, search box and repository cards;
    - [Activity] : the same with a "Recent Activity" log built from the events;
    - [Contrib]  : the same with a 12-week activity chart ([gitglue.js]).

    The variants share [connectedCallback], [buildRepoCard], [setupSearch] and
    [timeAgo] word for word; those live in [Common].

    Conventions of the embedding.
    - A JavaScript string is a sequence of code units; [ascii] carries the
      units below 256.
    - A [Date] is its time value: the number of milliseconds since the epoch,
      an integer of type [Z].  The records hold the time value that
      [new Date(field)] yields for the ISO 8601 timestamps of the API.
    - [new Date()] is the parameter [now]: one render pass reads one clock.
    - Integer-valued numbers are [Z]; the chart's bar heights are binary64
      floats, computed with the primitive floats of the kernel.
    - What the browser supplies and the repository does not define (the locale
      functions, the style sheet text, [Number::toString] on fractions) is a
      field of the class [Host]. *)

From Stdlib Require Import ZArith List Bool Lia Ascii String.
From Stdlib Require Import Numbers.DecimalString.
From Stdlib Require Import Sorting.Sorted Sorting.Permutation.
From Stdlib Require Import Floats.PrimFloat Numbers.Cyclic.Int63.Uint63.
Import ListNotations.

Open Scope list_scope.
Open Scope string_scope.
Open Scope Z_scope.

(** ** Strings *)

Module Str.

(** The double quote character, [U+0022]. *)
Definition dquote : ascii := ascii_of_nat 34.

(** The templates of the source are full of double quotes.  They are written
    here with an apostrophe in each such place, and [html] puts the double
    quotes back; no template of the source holds an apostrophe of its own. *)
Fixpoint html (s : string) : string :=
  match s with
  | EmptyString => EmptyString
  | String c r => String (if Ascii.eqb c "'" then dquote else c) (html r)
  end.

(** [String(n)] for an integer-valued number. *)
Definition show_Z (n : Z) : string := NilZero.string_of_int (Z.to_int n).

(** [s.startsWith(p)]. *)
Fixpoint startsWith (s p : string) {struct p} : bool :=
  match p, s with
  | EmptyString, _ => true
  | String _ _, EmptyString => false
  | String a p', String b s' => Ascii.eqb a b && startsWith s' p'
  end.

(** [s.includes(q)]: [q] occurs in [s] at some position. *)
Fixpoint includes (s q : string) : bool :=
  startsWith s q ||
  match s with
  | EmptyString => false
  | String _ s' => includes s' q
  end.

(** [q] is a substring of [s], as a proposition. *)
Definition Substring (q s : string) : Prop :=
  exists pre post, s = pre ++ q ++ post.

(** [s.split(sep)] for a one-character separator. *)
Fixpoint split (sep : ascii) (s : string) : list string :=
  match s with
  | EmptyString => [EmptyString]
  | String c r =>
      if Ascii.eqb c sep then EmptyString :: split sep r
      else match split sep r with
           | [] => [String c EmptyString]
           | w :: ws => String c w :: ws
           end
  end.

(** [l.join('')]. *)
Definition join (l : list string) : string :=
  fold_right append EmptyString l.

(** [s.charAt(0)], when there is one. *)
Definition first_char (s : string) : option ascii :=
  match s with EmptyString => None | String c _ => Some c end.

(** JavaScript truthiness of a string: every string but the empty one. *)
Definition truthy (s : string) : bool :=
  match s with EmptyString => false | _ => true end.

End Str.

Import Str.

(** ** The host *)

(** What the browser provides.  [toLowerCase] and [toUpperCase] are the
    locale-independent case mappings of [String.prototype];
    [toLocaleDateString] is the [en-US] short month and day of a date;
    [number_toString] prints a binary64 number; [LocalTZA t isUTC] is the
    offset of local time in milliseconds as ECMAScript defines it, at the UTC
    time [t] when [isUTC] holds and at the local time [t] otherwise, so it
    follows the changes of daylight saving time; [inherited_text key] is
    what a template literal prints for the property [key] that an object
    literal inherits from [Object.prototype]; [querySelector_search text]
    tells whether the tree the parser builds from [text] holds an element of
    class [search]; [getStyles] is the text of the [<style>] element, a
    constant of the source that no property reads. *)
Class Host : Type := {
  toLowerCase : string -> string;
  toUpperCase : string -> string;
  toLocaleDateString : Z -> string;
  number_toString : float -> string;
  LocalTZA : Z -> bool -> Z;
  inherited_text : string -> string;
  querySelector_search : string -> bool;
  getStyles : string
}.

(** ** What the variants share *)

Module Common.

(** *** [timeAgo] *)

Definition intervals : list (string * Z) :=
  [ ("year", 31536000); ("month", 2592000); ("day", 86400);
    ("hour", 3600); ("minute", 60) ].

(** The body of [for (const interval of intervals)]: the first interval that
    fits at least once decides. *)
Fixpoint timeAgo_loop (seconds : Z) (l : list (string * Z)) : string :=
  match l with
  | [] => "just now"
  | (label, secs) :: rest =>
      let count := seconds / secs in
      if 1 <=? count
      then show_Z count ++ " " ++ label ++ (if 1 <? count then "s" else "") ++ " ago"
      else timeAgo_loop seconds rest
  end.

(** [timeAgo(date)], with [now] the time value of [new Date()].
    [Math.floor((now - date) / 1000)] is the floor division of [Z]. *)
Definition timeAgo (now date : Z) : string :=
  timeAgo_loop ((now - date) / 1000) intervals.

(** *** The records of the API *)

(** The profile of [GET /users/:user].  [None] is the [null] the API sends
    for a field the user left unset. *)
Record Profile : Type := {
  html_url : string;
  avatar_url : string;
  login : string;
  name : option string;
  bio : option string;
  public_repos : Z;
  followers : Z;
  following : Z
}.

(** A repository of [GET /users/:user/repos].  [updated_at] is the time value
    of [new Date(repo.updated_at)]. *)
Record Repo : Type := {
  repo_name : string;
  repo_html_url : string;
  description : option string;
  language : option string;
  stargazers_count : Z;
  forks_count : Z;
  fork : bool;
  updated_at : Z
}.

(** [x || ''] for a string that may be [null]. *)
Definition or_empty (x : option string) : string :=
  match x with Some s => s | None => EmptyString end.

(** [n ? a : b] for a number: zero is falsy. *)
Definition nonzero (n : Z) : bool := negb (n =? 0).

(** *** [LANG_COLORS] *)

Definition LANG_COLORS : list (string * string) :=
  [
    ("JavaScript", "#f1e05a"); ("TypeScript", "#2b7489"); ("Python", "#3572A5");
    ("Java", "#b07219"); ("C", "#555555"); ("C++", "#f34b7d");
    ("C#", "#178600"); ("Go", "#00ADD8"); ("Rust", "#dea584");
    ("Ruby", "#701516"); ("PHP", "#4F5D95"); ("Swift", "#ffac45");
    ("Kotlin", "#F18E33"); ("Scala", "#c22d40"); ("Shell", "#89e051");
    ("HTML", "#e34c26"); ("CSS", "#563d7c"); ("SCSS", "#c6538c");
    ("Vue", "#41b883"); ("Svelte", "#ff3e00"); ("Dart", "#00B4AB");
    ("R", "#198CE7"); ("Julia", "#a270ba"); ("Lua", "#000080");
    ("Perl", "#0298c3"); ("Haskell", "#5e5086"); ("Elixir", "#6e4a7e");
    ("Clojure", "#db5855"); ("Erlang", "#B83998"); ("OCaml", "#3be133");
    ("F#", "#b845fc"); ("Jupyter Notebook", "#DA5B0B"); ("TeX", "#3D6117");
    ("Vim script", "#199f4b"); ("PowerShell", "#012456"); ("Dockerfile", "#384d54");
    ("Makefile", "#427819"); ("Stata", "#1a5f91"); ("MATLAB", "#e16737");
    ("Fortran", "#4d41b1"); ("Assembly", "#6E4C13"); ("Objective-C", "#438eff");
    ("Groovy", "#e69f56")
  ].

(** The own properties of the table: the colour written beside a key. *)
Fixpoint lookup (key : string) (table : list (string * string)) : option string :=
  match table with
  | [] => None
  | (k, v) :: rest => if String.eqb k key then Some v else lookup key rest
  end.

(** The names every object literal inherits from [Object.prototype]. *)
Definition Object_prototype : list string :=
  [ "constructor"; "hasOwnProperty"; "isPrototypeOf"; "propertyIsEnumerable";
    "toLocaleString"; "toString"; "valueOf"; "__proto__";
    "__defineGetter__"; "__defineSetter__"; "__lookupGetter__";
    "__lookupSetter__" ].

(** What [LANG_COLORS[language]] finds: a colour of the table, a function
    or object of the prototype, or nothing. *)
Inductive property : Type :=
  | own : string -> property
  | inherited : property
  | absent : property.

Definition get (language : string) : property :=
  match lookup language LANG_COLORS with
  | Some c => own c
  | None =>
      if existsb (String.eqb language) Object_prototype then inherited
      else absent
  end.

(** [LANG_COLORS[language] || '#8b949e']: an inherited property is truthy
    and is printed as the host prints it. *)
Definition lang_color `{Host} (language : string) : string :=
  match get language with
  | own c => if truthy c then c else "#8b949e"
  | inherited => inherited_text language
  | absent => "#8b949e"
  end.

(** *** [buildRepoCard] *)

Definition star_icon : string :=
  html "<svg viewBox='0 0 16 16' width='16' height='16'><path fill='currentColor' d='M8 .25a.75.75 0 0 1 .673.418l1.882 3.815 4.21.612a.75.75 0 0 1 .416 1.279l-3.046 2.97.719 4.192a.751.751 0 0 1-1.088.791L8 12.347l-3.766 1.98a.75.75 0 0 1-1.088-.79l.72-4.194L.818 6.374a.75.75 0 0 1 .416-1.28l4.21-.611L7.327.668A.75.75 0 0 1 8 .25Z'></path></svg>".

Definition fork_icon : string :=
  html "<svg viewBox='0 0 16 16' width='16' height='16'><path fill='currentColor' d='M5 5.372v.878c0 .414.336.75.75.75h4.5a.75.75 0 0 0 .75-.75v-.878a2.25 2.25 0 1 1 1.5 0v.878a2.25 2.25 0 0 1-2.25 2.25h-1.5v2.128a2.251 2.251 0 1 1-1.5 0V8.5h-1.5A2.25 2.25 0 0 1 3.5 6.25v-.878a2.25 2.25 0 1 1 1.5 0ZM5 3.25a.75.75 0 1 0-1.5 0 .75.75 0 0 0 1.5 0Zm6.75.75a.75.75 0 1 0 0-1.5.75.75 0 0 0 0 1.5Zm-3 8.75a.75.75 0 1 0-1.5 0 .75.75 0 0 0 1.5 0Z'></path></svg>".

Definition repo_icon : string :=
  html "<svg viewBox='0 0 16 16' width='16' height='16' class='repo-icon'><path fill='currentColor' d='M2 2.5A2.5 2.5 0 0 1 4.5 0h8.75a.75.75 0 0 1 .75.75v12.5a.75.75 0 0 1-.75.75h-2.5a.75.75 0 0 1 0-1.5h1.75v-2h-8a1 1 0 0 0-.714 1.7.75.75 0 1 1-1.072 1.05A2.495 2.495 0 0 1 2 11.5Zm10.5-1h-8a1 1 0 0 0-1 1v6.708A2.486 2.486 0 0 1 4.5 9h8ZM5 12.25a.25.25 0 0 1 .25-.25h3.5a.25.25 0 0 1 .25.25v3.25a.25.25 0 0 1-.4.2l-1.45-1.087a.249.249 0 0 0-.3 0L5.4 15.7a.25.25 0 0 1-.4-.2Z'></path></svg>".

(** [buildRepoCard(repo)].  The card writes the lowercased name and
    description into the attributes [data-name] and [data-desc], between
    double quotes and as they are. *)
Definition buildRepoCard `{Host} (now : Z) (repo : Repo) : string :=
  let language := or_empty (language repo) in
  let desc := or_empty (description repo) in
  let lang :=
    if truthy language then html "
      <span class='lang'>
        <span class='lang-dot' style='background: " ++ lang_color language ++ html "'></span>
        " ++ language ++ "
      </span>
    "
    else "" in
  let stars :=
    if nonzero (stargazers_count repo) then html "
      <a href='" ++ repo_html_url repo ++ html "/stargazers' target='_blank' rel='noopener' class='stat'>
        " ++ star_icon ++ html "
        " ++ show_Z (stargazers_count repo) ++ "
      </a>
    "
    else "" in
  let forks :=
    if nonzero (forks_count repo) then html "
      <a href='" ++ repo_html_url repo ++ html "/forks' target='_blank' rel='noopener' class='stat'>
        " ++ fork_icon ++ html "
        " ++ show_Z (forks_count repo) ++ "
      </a>
    "
    else "" in
  html "
      <article class='repo' data-name='" ++ toLowerCase (repo_name repo) ++ html "' data-desc='" ++ toLowerCase (or_empty (description repo)) ++ html "'>
        <div class='repo-header'>
          " ++ repo_icon ++ html "
          <a href='" ++ repo_html_url repo ++ html "' target='_blank' rel='noopener' class='repo-name'>" ++ repo_name repo ++ "</a>
          " ++ (if fork repo then html "<span class='fork-badge'>Fork</span>" else "") ++ "
        </div>
        " ++ (if truthy desc then html "<p class='repo-desc'>" ++ desc ++ "</p>" else "") ++ html "
        <div class='repo-meta'>
          " ++ lang ++ "
          " ++ stars ++ "
          " ++ forks ++ html "
          <span class='updated'>Updated " ++ timeAgo now (updated_at repo) ++ "</span>
        </div>
      </article>
    ".

(** *** The element the parser builds from a card *)

(** [shadowRoot.innerHTML = ...] hands the text to the HTML parser, and
    [setupSearch] reads the cards back from the tree.  [Dom] is the tokenizer
    of the HTML Standard (section 13.2.5) from the data state up to the first
    start tag it emits: its tag name and its attributes.  It is run on the
    text of one card, so it tells what the parser reads from the start tag
    of that card where the text before the card leaves the parser in the
    data state; which elements of class [repo] the whole page yields (markup
    in a description can add some and swallow others) is not followed.  What
    the model
    leaves out makes it [Stuck]: markup other than a start tag after the
    first [<], and inside an attribute value a character reference (an
    ampersand), a carriage return (the parser normalises newlines before it
    tokenizes) and a NUL. *)
Module Dom.

Inductive state : Type :=
  | Data
  | TagOpen
  | TagName
  | BeforeAttributeName
  | AttributeName
  | AfterAttributeName
  | BeforeAttributeValue
  | AttributeValueDoubleQuoted
  | AttributeValueSingleQuoted
  | AttributeValueUnquoted
  | AfterAttributeValueQuoted
  | SelfClosingStartTag
  | Emitted
  | Stuck.

(** The tag being built: the attributes that are complete, last first, and
    the attribute under construction. *)
Record tag : Type := {
  tag_name : string;
  attributes : list (string * string);
  current : option (string * string)
}.

Definition code (c : ascii) : nat := nat_of_ascii c.

Definition is_whitespace (c : ascii) : bool :=
  let n := code c in
  (Nat.eqb n 9 || Nat.eqb n 10 || Nat.eqb n 12 || Nat.eqb n 13 || Nat.eqb n 32)%bool.

Definition is_upper (c : ascii) : bool :=
  let n := code c in (Nat.leb 65 n && Nat.leb n 90)%bool.

Definition is_alpha (c : ascii) : bool :=
  let n := code c in
  (is_upper c || (Nat.leb 97 n && Nat.leb n 122))%bool.

(** ASCII upper alpha to lower alpha, as the tokenizer does in names. *)
Definition lower (c : ascii) : ascii :=
  if is_upper c then ascii_of_nat (code c + 32) else c.

(** The characters of an attribute value that the model does not follow. *)
Definition outside_model (c : ascii) : bool :=
  (Ascii.eqb c "&" || Nat.eqb (code c) 13 || Nat.eqb (code c) 0)%bool.

Definition snoc (s : string) (c : ascii) : string :=
  (s ++ String c EmptyString)%string.

Fixpoint has_attribute (n : string) (l : list (string * string)) : bool :=
  match l with
  | [] => false
  | (k, _) :: rest => (String.eqb k n || has_attribute n rest)%bool
  end.

(** The attribute under construction joins the tag, unless the tag already
    has one of that name: a duplicate is dropped. *)
Definition commit (t : tag) : tag :=
  match current t with
  | None => t
  | Some (n, v) =>
      {| tag_name := tag_name t;
         attributes := if has_attribute n (attributes t) then attributes t
                       else (n, v) :: attributes t;
         current := None |}
  end.

Definition start_attribute (n : string) (t : tag) : tag :=
  let t' := commit t in
  {| tag_name := tag_name t'; attributes := attributes t';
     current := Some (n, EmptyString) |}.

Definition name_char (c : ascii) (t : tag) : tag :=
  match current t with
  | Some (n, v) =>
      {| tag_name := tag_name t; attributes := attributes t;
         current := Some (snoc n (lower c), v) |}
  | None => t
  end.

Definition value_char (c : ascii) (t : tag) : tag :=
  match current t with
  | Some (n, v) =>
      {| tag_name := tag_name t; attributes := attributes t;
         current := Some (n, snoc v c) |}
  | None => t
  end.

Definition tag_char (c : ascii) (t : tag) : tag :=
  {| tag_name := snoc (tag_name t) (lower c); attributes := attributes t;
     current := current t |}.

(** "Before attribute name", for a character that is neither whitespace nor
    [/] nor [>]: a new attribute starts, and [=] is a name character there. *)
Definition new_attribute (c : ascii) (t : tag) : state * tag :=
  (AttributeName, name_char c (start_attribute EmptyString t)).

Definition before_attribute_name (c : ascii) (t : tag) : state * tag :=
  if is_whitespace c then (BeforeAttributeName, t)
  else if Ascii.eqb c "/" then (SelfClosingStartTag, t)
  else if Ascii.eqb c ">" then (Emitted, commit t)
  else new_attribute c t.

Definition step (st : state) (c : ascii) (t : tag) : state * tag :=
  match st with
  | Data => if Ascii.eqb c "<" then (TagOpen, t) else (Data, t)
  | TagOpen => if is_alpha c then (TagName, tag_char c t) else (Stuck, t)
  | TagName =>
      if is_whitespace c then (BeforeAttributeName, t)
      else if Ascii.eqb c "/" then (SelfClosingStartTag, t)
      else if Ascii.eqb c ">" then (Emitted, commit t)
      else (TagName, tag_char c t)
  | BeforeAttributeName => before_attribute_name c t
  | AttributeName =>
      if is_whitespace c then (AfterAttributeName, t)
      else if Ascii.eqb c "/" then (SelfClosingStartTag, t)
      else if Ascii.eqb c ">" then (Emitted, commit t)
      else if Ascii.eqb c "=" then (BeforeAttributeValue, t)
      else (AttributeName, name_char c t)
  | AfterAttributeName =>
      if is_whitespace c then (AfterAttributeName, t)
      else if Ascii.eqb c "/" then (SelfClosingStartTag, t)
      else if Ascii.eqb c "=" then (BeforeAttributeValue, t)
      else if Ascii.eqb c ">" then (Emitted, commit t)
      else new_attribute c t
  | BeforeAttributeValue =>
      if is_whitespace c then (BeforeAttributeValue, t)
      else if Ascii.eqb c dquote then (AttributeValueDoubleQuoted, t)
      else if Ascii.eqb c "'" then (AttributeValueSingleQuoted, t)
      else if Ascii.eqb c ">" then (Emitted, commit t)
      else if outside_model c then (Stuck, t)
      else (AttributeValueUnquoted, value_char c t)
  | AttributeValueDoubleQuoted =>
      if Ascii.eqb c dquote then (AfterAttributeValueQuoted, t)
      else if outside_model c then (Stuck, t)
      else (AttributeValueDoubleQuoted, value_char c t)
  | AttributeValueSingleQuoted =>
      if Ascii.eqb c "'" then (AfterAttributeValueQuoted, t)
      else if outside_model c then (Stuck, t)
      else (AttributeValueSingleQuoted, value_char c t)
  | AttributeValueUnquoted =>
      if is_whitespace c then (BeforeAttributeName, t)
      else if outside_model c then (Stuck, t)
      else if Ascii.eqb c ">" then (Emitted, commit t)
      else (AttributeValueUnquoted, value_char c t)
  | AfterAttributeValueQuoted => before_attribute_name c t
  | SelfClosingStartTag =>
      if Ascii.eqb c ">" then (Emitted, commit t)
      else before_attribute_name c t
  | Emitted => (Emitted, t)
  | Stuck => (Stuck, t)
  end.

(** The tokenizer runs until it emits the tag; the end of the text before
    that emits nothing. *)
Fixpoint run (st : state) (t : tag) (s : string) : option tag :=
  match st with
  | Emitted => Some t
  | Stuck => None
  | _ =>
      match s with
      | EmptyString => None
      | String c r => let (st', t') := step st c t in run st' t' r
      end
  end.

(** The state after a stretch of text, wherever that leaves the tokenizer. *)
Fixpoint feed (st : state) (t : tag) (s : string) : state * tag :=
  match s with
  | EmptyString => (st, t)
  | String c r => let (st', t') := step st c t in feed st' t' r
  end.

(** A text that a double-quoted attribute value carries unchanged: no
    double quote in it, and nothing the model leaves out. *)
Fixpoint plain (s : string) : bool :=
  match s with
  | EmptyString => true
  | String c r =>
      (negb (Ascii.eqb c dquote) && negb (outside_model c) && plain r)%bool
  end.

Definition first_start_tag (s : string) : option tag :=
  run Data {| tag_name := EmptyString; attributes := []; current := None |} s.

(** [element.getAttribute(n)]. *)
Fixpoint getAttribute (n : string) (l : list (string * string)) : option string :=
  match l with
  | [] => None
  | (k, v) :: rest => if String.eqb k n then Some v else getAttribute n rest
  end.

(** An element of the tree: the attributes the parser read from its start
    tag, which is where [dataset] comes from, and the one style property the
    widget writes.  That the browser mirrors the property in a [style]
    attribute is not followed: [attrs] stays what the start tag said. *)
Record Element : Type := {
  attrs : list (string * string);
  style_display : string
}.

Definition element_of (s : string) : option Element :=
  match first_start_tag s with
  | Some t => Some {| attrs := attributes t; style_display := EmptyString |}
  | None => None
  end.

(** [element.dataset[key]]: the attribute [data-key], [undefined] without it. *)
Definition dataset (key : string) (e : Element) : option string :=
  getAttribute ("data-" ++ key) (attrs e).

End Dom.

(** *** [setupSearch] *)

(** The element that the parser builds from the text of one card, parsed on
    its own, from its first start tag.  In the page the card comes after the
    header and the earlier cards, and a name or description may bring markup
    of its own, with further elements of class [repo] that
    [querySelectorAll] lists as well: the tree of the whole page is not
    followed here. *)
Definition card_element `{Host} (now : Z) (repo : Repo) : option Dom.Element :=
  Dom.element_of (buildRepoCard now repo).

(** [name.includes(query) || desc.includes(query)] on one card.  Reading
    [includes] off [undefined] is a [TypeError]: [None]. *)
Definition card_match (query : string) (card : Dom.Element) : option bool :=
  match Dom.dataset "name" card with
  | None => None
  | Some name =>
      if includes name query then Some true
      else match Dom.dataset "desc" card with
           | None => None
           | Some desc => Some (includes desc query)
           end
  end.

Definition set_display (d : string) (card : Dom.Element) : Dom.Element :=
  {| Dom.attrs := Dom.attrs card; Dom.style_display := d |}.

(** The listener of the [input] event, on one card: [value] is
    [e.target.value]. *)
Definition on_input_card `{Host} (value : string) (card : Dom.Element)
  : option Dom.Element :=
  let query := toLowerCase value in
  match card_match query card with
  | Some m => Some (set_display (if m then "" else "none") card)
  | None => None
  end.

(** The listener over the node list, [repos.forEach]: an exception leaves
    the loop, and the cards not yet visited stay as they are. *)
Fixpoint on_input `{Host} (value : string) (cards : list Dom.Element)
  : list Dom.Element :=
  match cards with
  | [] => []
  | card :: rest =>
      match on_input_card value card with
      | Some card' => card' :: on_input value rest
      | None => card :: rest
      end
  end.

(** A card is displayed when its [display] is not [none]. *)
Definition displayed (card : Dom.Element) : bool :=
  negb (String.eqb (Dom.style_display card) "none").

(** *** Events *)

(** A property of a JSON object: absent, [null], or a value. *)
Inductive js (A : Type) : Type :=
  | undefined : js A
  | null : js A
  | val : A -> js A.

Arguments undefined {A}.
Arguments null {A}.
Arguments val {A} _.

(** [x?.f]: [undefined] when [x] is [null] or [undefined]. *)
Definition chain {A B : Type} (x : js A) (f : A -> js B) : js B :=
  match x with val a => f a | _ => undefined end.

(** A string property inside a template literal. *)
Definition js_show (x : js string) : string :=
  match x with undefined => "undefined" | null => "null" | val s => s end.

(** Truthiness of a string property, and of a number property. *)
Definition js_truthy (x : js string) : bool :=
  match x with val s => truthy s | _ => false end.

Definition js_nonzero (x : js Z) : bool :=
  match x with val n => nonzero n | _ => false end.

Definition js_show_Z (x : js Z) : string :=
  match x with undefined => "undefined" | null => "null" | val n => show_Z n end.

Record RepoRef : Type := { ref_name : js string }.

Record PullRequest : Type := { pr_number : js Z }.

Record Release : Type := { tag_name : js string }.

Record Payload : Type := {
  head : js string;
  ref_type : js string;
  ref : js string;
  action : js string;
  number : js Z;
  pull_request : js PullRequest;
  release : js Release
}.

(** An event of [GET /users/:user/events].  [created_at] is the time value
    of [new Date(event.created_at)]. *)
Record Event : Type := {
  type : js string;
  repo : js RepoRef;
  payload : js Payload;
  created_at : Z
}.

(** *** The element and the network *)

(** The state of the element: the text last assigned to
    [shadowRoot.innerHTML], the requests [fetch] has sent so far, first sent
    first, and whether a search listener is in place. *)
Record World : Type := {
  innerHTML : string;
  fetched : list string;
  searching : bool
}.

(** The element as [constructor()] leaves it. *)
Definition constructed : World :=
  {| innerHTML := EmptyString; fetched := []; searching := false |}.

Definition set_innerHTML (s : string) (w : World) : World :=
  {| innerHTML := s; fetched := fetched w; searching := false |}.

Definition send (url : string) (w : World) : World :=
  {| innerHTML := innerHTML w; fetched := (fetched w ++ [url])%list;
     searching := searching w |}.

(** [setupSearch()]: [search?.addEventListener] adds the listener when
    [querySelector('.search')] finds the input in the tree of the page, and
    does nothing otherwise. *)
Definition setupSearch `{Host} (w : World) : World :=
  {| innerHTML := innerHTML w; fetched := fetched w;
     searching := querySelector_search (innerHTML w) |}.

(** A response: its [ok] flag and what [json()] resolves to, [None] when
    [json()] rejects. *)
Record Response (A : Type) : Type := { ok : bool; body : option A }.

Arguments ok {A} _.
Arguments body {A} _.

(** What [fetch(url)] settles to. *)
Inductive Fetch (A : Type) : Type :=
  | Rejected : Fetch A
  | Fulfilled : Response A -> Fetch A.

Arguments Rejected {A}.
Arguments Fulfilled {A} _.

(** The API, one typed endpoint per record type, each a function of the
    URL requested. *)
Record Network : Type := {
  fetch_profile : string -> Fetch Profile;
  fetch_repos : string -> Fetch (list Repo);
  fetch_events : string -> Fetch (list Event)
}.

(** The body of [try]: [None] is a thrown exception or a rejected promise. *)
Definition Exc (A : Type) : Type := option A.

Definition ret {A : Type} (a : A) : Exc A := Some a.

Definition throw {A : Type} : Exc A := None.

Definition bind {A B : Type} (m : Exc A) (k : A -> Exc B) : Exc B :=
  match m with Some a => k a | None => None end.

Notation "x <- m ;; k" := (bind m (fun x => k))
  (at level 61, m at next level, right associativity).

(** [await p] for a fetch. *)
Definition await {A : Type} (f : Fetch A) : Exc (Response A) :=
  match f with Fulfilled r => ret r | Rejected => throw end.

(** [await res.json()]. *)
Definition json {A : Type} (r : Response A) : Exc A := body r.

Definition profile_url (user : string) : string :=
  "https://api.github.com/users/" ++ user.

Definition repos_url (user : string) : string :=
  "https://api.github.com/users/" ++ user ++ "/repos?sort=updated&per_page=100".

Definition events_url (user : string) : string :=
  "https://api.github.com/users/" ++ user ++ "/events?per_page=100".

Definition loading_html : string :=
  html "<div class='loading'>Loading repositories...</div>".

Definition failed_html : string :=
  html "<p class='error'>Failed to load GitHub data</p>".

Definition missing_user_html : string :=
  html "<p style='color: #f85149;'>Error: Missing 'user' attribute</p>".

(** [connectedCallback()], over the [render] of the variant.  [user] is
    [getAttribute('user')]: [None] for [null]. *)
Definition connectedCallback (render : string -> World -> World)
  (user : option string) (w : World) : World :=
  if truthy (or_empty user) then render (or_empty user) w
  else set_innerHTML missing_user_html w.

(** *** What one pass reads *)

(** The [try] block of [render] up to its last [await], in the variants
    that ask for the events: [Promise.all] over the three promises, the test
    of the [ok] flags, and the three bodies. *)
Definition fetched_records (net : Network) (user : string)
  : Exc (Profile * list Repo * list Event) :=
  profileRes <- await (fetch_profile net (profile_url user)) ;;
  reposRes <- await (fetch_repos net (repos_url user)) ;;
  eventsRes <- await (fetch_events net (events_url user)) ;;
  _ <- (if negb (ok profileRes) || negb (ok reposRes) then throw else ret tt) ;;
  profile <- json profileRes ;;
  repos <- json reposRes ;;
  events <- (if ok eventsRes then json eventsRes else ret []) ;;
  ret (profile, repos, events).

(** The three requests of such a pass: [fetch] sends each when the array
    given to [Promise.all] is built, before anything is awaited. *)
Definition send_all (user : string) (w : World) : World :=
  send (events_url user) (send (repos_url user) (send (profile_url user) w)).

(** *** [Array.prototype.sort] *)

(** The sort is stable; [cmp x y <= 0] keeps [x] before [y].  For a
    comparator that orders its arguments consistently, as the difference of
    two time values does, every stable sort returns this list. *)
Section Sort.

Context {A : Type} (cmp : A -> A -> Z).

Fixpoint insert (x : A) (l : list A) : list A :=
  match l with
  | [] => [x]
  | y :: rest => if cmp x y <=? 0 then x :: l else y :: insert x rest
  end.

Fixpoint sort (l : list A) : list A :=
  match l with
  | [] => []
  | x :: rest => insert x (sort rest)
  end.

End Sort.

(** [(a, b) => new Date(b.updated_at) - new Date(a.updated_at)]. *)
Definition by_update (a b : Repo) : Z := updated_at b - updated_at a.

(** *** The profile header *)

(** The three [buildHTML] templates open with the same text, from the
    container down to the end of the [<header>]. *)
Definition profile_header (profile : Profile) : string :=
  let bio := or_empty (bio profile) in
  html "
      <div class='container'>
        <header class='profile'>
          <a href='" ++ html_url profile ++ html "' target='_blank' rel='noopener'>
            <img src='" ++ avatar_url profile ++ html "' alt='" ++ login profile ++ html "' class='avatar'>
          </a>
          <div class='profile-info'>
            <a href='" ++ html_url profile ++ html "' target='_blank' rel='noopener' class='name'>" ++ (if truthy (or_empty (name profile)) then or_empty (name profile) else login profile) ++ html "</a>
            <span class='username'>@" ++ login profile ++ "</span>
            " ++ (if truthy bio then html "<p class='bio'>" ++ bio ++ "</p>" else "") ++ html "
            <div class='stats'>
              <a href='" ++ html_url profile ++ html "?tab=repositories' target='_blank' rel='noopener'>
                <strong>" ++ show_Z (public_repos profile) ++ html "</strong> repos
              </a>
              <a href='" ++ html_url profile ++ html "?tab=followers' target='_blank' rel='noopener'>
                <strong>" ++ show_Z (followers profile) ++ html "</strong> followers
              </a>
              <a href='" ++ html_url profile ++ html "?tab=following' target='_blank' rel='noopener'>
                <strong>" ++ show_Z (following profile) ++ html "</strong> following
              </a>
            </div>
          </div>
        </header>".

End Common.

(** ** The basic variant *)

Module Basic.

Import Common.

(** [buildHTML(profile, repos)]: the cards follow the order of [repos], which
    the request asks the API to sort ([sort=updated]). *)
Definition buildHTML `{Host} (now : Z) (profile : Profile) (repos : list Repo)
  : string :=
  profile_header profile ++ html "

        <div class='search-container'>
          <input type='text' class='search' placeholder='Search repositories...'>
        </div>

        <div class='repos'>
          " ++ join (map (buildRepoCard now) repos) ++ "
        </div>
      </div>
    ".

(** The [try] block of [render] up to its last [await]: two promises. *)
Definition fetched_records (net : Network) (user : string)
  : Exc (Profile * list Repo) :=
  profileRes <- await (fetch_profile net (profile_url user)) ;;
  reposRes <- await (fetch_repos net (repos_url user)) ;;
  _ <- (if negb (ok profileRes) || negb (ok reposRes) then throw else ret tt) ;;
  profile <- json profileRes ;;
  repos <- json reposRes ;;
  ret (profile, repos).

(** [render(user)]: two requests, sent before either is awaited; then the
    page, or the failure text when anything in [try] threw. *)
Definition render `{Host} (net : Network) (now : Z) (user : string) (w : World)
  : World :=
  let w := set_innerHTML (getStyles ++ loading_html) w in
  let w := send (repos_url user) (send (profile_url user) w) in
  match fetched_records net user with
  | Some (profile, repos) =>
      setupSearch (set_innerHTML (getStyles ++ buildHTML now profile repos) w)
  | None => set_innerHTML (getStyles ++ failed_html) w
  end.

Definition connectedCallback `{Host} (net : Network) (now : Z)
  (user : option string) (w : World) : World :=
  Common.connectedCallback (render net now) user w.

End Basic.

(** ** The variant with the activity log *)

Module Activity.

Import Common.

(** [capitalize(str)]: [charAt(0).toUpperCase() + slice(1)]. *)
Definition capitalize `{Host} (str : js string) : string :=
  match str with
  | val (String c rest) => toUpperCase (String c EmptyString) ++ rest
  | _ => EmptyString
  end.

(** The anchor that closes several sentences: [link] is the path under the
    repository, [text] what the anchor shows. *)
Definition commit_hash_link (repoUrl link text : string) : string :=
  html " <a href='" ++ repoUrl ++ link ++ html "' target='_blank' rel='noopener' class='commit-hash'>" ++ text ++ "</a>".

(** [` <a ...>#${n}</a>`] for a pull request number, empty without one. *)
Definition pull_link (repoUrl : string) (n : js Z) : string :=
  if js_nonzero n
  then commit_hash_link repoUrl ("/pull/" ++ js_show_Z n) ("#" ++ js_show_Z n)
  else EmptyString.

Definition repoFullName (event : Event) : string :=
  let n := chain (repo event) ref_name in
  if js_truthy n then js_show n else "unknown".

Definition repoName (event : Event) : string :=
  match nth_error (split "/" (repoFullName event)) 1 with
  | Some s => if truthy s then s else repoFullName event
  | None => repoFullName event
  end.

Definition repoUrl (event : Event) : string :=
  "https://github.com/" ++ repoFullName event.

Definition repoLink (event : Event) : string :=
  html "<a href='" ++ repoUrl event ++ html "' target='_blank' rel='noopener'>" ++ repoName event ++ "</a>".

(** The names of the [case] labels, in the order of the [switch]. *)
Definition event_types : list string :=
  [ "PushEvent"; "CreateEvent"; "DeleteEvent"; "WatchEvent"; "ForkEvent";
    "IssuesEvent"; "IssueCommentEvent"; "PullRequestEvent";
    "PullRequestReviewEvent"; "PullRequestReviewCommentEvent";
    "ReleaseEvent"; "PublicEvent" ].

(** The sentence of one [case]; any other string is the [default]. *)
Definition sentence `{Host} (t : string) (event : Event) : string :=
  let p := payload event in
  if String.eqb t "PushEvent" then
    let hash := chain (chain p head) (fun h => val (substring 0 7 h)) in
    let commitLink :=
      if js_truthy hash
      then commit_hash_link (repoUrl event)
             ("/commit/" ++ js_show (chain p head)) (js_show hash)
      else EmptyString in
    "Pushed to " ++ repoLink event ++ commitLink
  else if String.eqb t "CreateEvent" then
    let refType :=
      if js_truthy (chain p ref_type) then js_show (chain p ref_type)
      else "repository" in
    let ref := chain p ref in
    if js_truthy ref
    then "Created " ++ refType ++ " <strong>" ++ js_show ref ++ "</strong> in " ++ repoLink event
    else "Created " ++ refType ++ " " ++ repoLink event
  else if String.eqb t "DeleteEvent" then
    "Deleted " ++ js_show (chain p ref_type) ++ " <strong>" ++ js_show (chain p ref) ++ "</strong> from " ++ repoLink event
  else if String.eqb t "WatchEvent" then
    "Starred " ++ repoLink event
  else if String.eqb t "ForkEvent" then
    "Forked " ++ repoLink event
  else if String.eqb t "IssuesEvent" then
    capitalize (chain p action) ++ " issue in " ++ repoLink event
  else if String.eqb t "IssueCommentEvent" then
    "Commented on issue in " ++ repoLink event
  else if String.eqb t "PullRequestEvent" then
    capitalize (chain p action) ++ " PR in " ++ repoLink event
      ++ pull_link (repoUrl event) (chain p number)
  else if String.eqb t "PullRequestReviewEvent" then
    "Reviewed PR in " ++ repoLink event
      ++ pull_link (repoUrl event) (chain (chain p pull_request) pr_number)
  else if String.eqb t "PullRequestReviewCommentEvent" then
    "Commented on PR in " ++ repoLink event
      ++ pull_link (repoUrl event) (chain (chain p pull_request) pr_number)
  else if String.eqb t "ReleaseEvent" then
    let tag := chain (chain p release) tag_name in
    let tagLink :=
      if js_truthy tag
      then commit_hash_link (repoUrl event) ("/releases/tag/" ++ js_show tag) (js_show tag)
      else EmptyString in
    capitalize (chain p action) ++ " release in " ++ repoLink event ++ tagLink
  else if String.eqb t "PublicEvent" then
    "Made " ++ repoLink event ++ " public"
  else
    "Activity in " ++ repoLink event.

(** [formatEventDescription(event)]: [switch (event.type)] compares with
    [===], so a type that is no string takes the [default]. *)
Definition formatEventDescription `{Host} (event : Event) : string :=
  match type event with
  | val t => sentence t event
  | _ => "Activity in " ++ repoLink event
  end.

(** [buildActivityLog(events)]: the first 30 events, one item each. *)
Definition buildActivityLog `{Host} (now : Z) (events : list Event) : string :=
  match events with
  | [] => html "
        <div class='activity-header'>
          <span class='activity-title'>Recent Activity</span>
        </div>
        <div class='activity-empty'>No recent activity</div>
      "
  | _ =>
      let items :=
        join (map (fun event => html "
        <div class='activity-item'>
          <span class='activity-desc'>" ++ formatEventDescription event ++ html "</span>
          <span class='activity-time'>" ++ timeAgo now (created_at event) ++ "</span>
        </div>
      ")
                  (firstn 30 events)) in
      html "
      <div class='activity-header'>
        <span class='activity-title'>Recent Activity</span>
        <span class='activity-total'>" ++ show_Z (Z.of_nat (List.length events)) ++ html " events</span>
      </div>
      <div class='activity-list'>
        " ++ items ++ "
      </div>
    "
  end.

(** [buildHTML(profile, repos, events)].  [repos.sort] sorts the array in
    place: the second component is the array as the call leaves it. *)
Definition buildHTML `{Host} (now : Z) (profile : Profile) (repos : list Repo)
  (events : list Event) : string * list Repo :=
  let sorted := sort by_update repos in
  (profile_header profile ++ html "

        <div class='activity-log'>
          " ++ buildActivityLog now events ++ html "
        </div>

        <div class='search-container'>
          <input type='text' class='search' placeholder='Search repositories...'>
        </div>

        <div class='repos'>
          " ++ join (map (buildRepoCard now) sorted) ++ "
        </div>
      </div>
    ",
   sorted).

(** [render(user)]: three requests, sent before any is awaited; then the
    page, or the failure text when anything in [try] threw. *)
Definition render `{Host} (net : Network) (now : Z) (user : string) (w : World)
  : World :=
  let w := set_innerHTML (getStyles ++ loading_html) w in
  let w := send_all user w in
  match fetched_records net user with
  | Some (profile, repos, events) =>
      setupSearch
        (set_innerHTML (getStyles ++ fst (buildHTML now profile repos events)) w)
  | None => set_innerHTML (getStyles ++ failed_html) w
  end.

Definition connectedCallback `{Host} (net : Network) (now : Z)
  (user : option string) (w : World) : World :=
  Common.connectedCallback (render net now) user w.

End Activity.

(** ** The variant with the activity chart ([gitglue.js]) *)

Module Contrib.

Import Common.

(** *** [buildContributionData] *)

(** One bar of the chart: a week, the events counted in it, its label. *)
Record Week : Type := { start : Z; count : Z; label : string }.

Definition msPerDay : Z := 86400000.

(** [LocalTime(t)] and [UTC(t)] of ECMAScript: from a time value to the
    local time it shows, and from a local time to its time value. *)
Definition LocalTime `{Host} (t : Z) : Z := t + LocalTZA t true.

Definition UTC `{Host} (t : Z) : Z := t - LocalTZA t false.

(** [WeekDay(t)]: the day of the week of a local time, 0 for Sunday; the
    epoch fell on a Thursday. *)
Definition WeekDay (t : Z) : Z := (t / msPerDay + 4) mod 7.

(** [date.getDay()]. *)
Definition getDay `{Host} (t : Z) : Z := WeekDay (LocalTime t).

(** [d.setDate(d.getDate() + k)]: [MakeDay] moves the day number of the
    local time by [k], [MakeDate] keeps the time within the day, and [UTC]
    turns the local time back into a time value; across a change of daylight
    saving time the time value moves by an hour more or less than [k]
    days. *)
Definition addDays `{Host} (t k : Z) : Z := UTC (LocalTime t + k * msPerDay).

(** The values of [i] in [for (let i = n - 1; i >= 0; i--)]. *)
Fixpoint countdown (n : nat) : list Z :=
  match n with
  | O => []
  | S k => Z.of_nat k :: countdown k
  end.

(** The week pushed at step [i] of the first loop. *)
Definition week_of `{Host} (today i : Z) : Week :=
  let weekStart := addDays today (- (i * 7) - getDay today) in
  {| start := weekStart; count := 0; label := toLocaleDateString weekStart |}.

(** [weekEnd]: [weeks[i].start] moved by seven days. *)
Definition weekEnd `{Host} (w : Week) : Z := addDays (start w) 7.

Definition in_week `{Host} (eventDate : Z) (w : Week) : bool :=
  (start w <=? eventDate) && (eventDate <? weekEnd w).

Definition increment (w : Week) : Week :=
  {| start := start w; count := count w + 1; label := label w |}.

(** The inner loop: the first week that holds the date counts the event,
    and [break] ends the search. *)
Fixpoint count_event `{Host} (eventDate : Z) (weeks : list Week) : list Week :=
  match weeks with
  | [] => []
  | w :: rest =>
      if in_week eventDate w then increment w :: rest
      else w :: count_event eventDate rest
  end.

(** [buildContributionData(events)], with [today] the time value of
    [new Date()]. *)
Definition buildContributionData `{Host} (today : Z) (events : list Event)
  : list Week :=
  let weeks := map (week_of today) (countdown 12) in
  fold_left (fun weeks event => count_event (created_at event) weeks)
            events weeks.

(** *** [buildContributionGraph] *)

Definition barWidth : Z := 50.
Definition barGap : Z := 8.
Definition maxHeight : Z := 60.

(** An integer as a binary64 number. *)
Definition to_float (n : Z) : float := PrimFloat.of_uint63 (Uint63.of_Z n).

(** Truthiness of a number: neither zero nor [NaN]. *)
Definition float_truthy (x : float) : bool :=
  negb (PrimFloat.eqb x 0%float) && negb (PrimFloat.is_nan x).

(** [Math.max(...weeks.map(w => w.count), 1)]. *)
Definition maxCount (weeks : list Week) : Z :=
  fold_right Z.max 1 (map count weeks).

(** [barHeight] and [y] of one week. *)
Definition bar (maxCount : Z) (week : Week) : float * float :=
  let r := (to_float (count week) / to_float maxCount * to_float maxHeight)%float in
  let barHeight := if float_truthy r then r else 2%float in
  (barHeight, (to_float maxHeight - barHeight)%float).

(** The body of [weeks.forEach((week, i) => ...)]: what one week adds to
    [bars]. *)
Definition bar_html `{Host} (maxCount : Z) (week : Week) (i : Z) : string :=
  let '(barHeight, y) := bar maxCount week in
  let x := i * (barWidth + barGap) in
  html "<rect x='" ++ show_Z x ++ html "' y='" ++ number_toString y ++ html "' width='" ++ show_Z barWidth ++ html "' height='" ++ number_toString barHeight ++ html "' rx='3' fill='#40c463' class='activity-bar'><title>" ++ label week ++ ": " ++ show_Z (count week) ++ " events</title></rect>"
  ++ html "<text x='" ++ show_Z (x + barWidth / 2) ++ html "' y='" ++ show_Z (maxHeight + 16) ++ html "' text-anchor='middle' class='bar-label'>" ++ label week ++ "</text>"
  ++ (if 0 <? count week
      then html "<text x='" ++ show_Z (x + barWidth / 2) ++ html "' y='" ++ number_toString (y - 4)%float ++ html "' text-anchor='middle' class='bar-count'>" ++ show_Z (count week) ++ "</text>"
      else EmptyString).

Fixpoint bars_from `{Host} (maxCount : Z) (i : Z) (weeks : list Week) : string :=
  match weeks with
  | [] => EmptyString
  | week :: rest => bar_html maxCount week i ++ bars_from maxCount (i + 1) rest
  end.

(** [weeks.reduce((sum, w) => sum + w.count, 0)]. *)
Definition totalEvents (weeks : list Week) : Z :=
  fold_left (fun sum w => sum + count w) weeks 0.

Definition buildContributionGraph `{Host} (weeks : list Week) : string :=
  let width := Z.of_nat (List.length weeks) * (barWidth + barGap) in
  let height := maxHeight + 30 in
  let bars := bars_from (maxCount weeks) 0 weeks in
  let totalEvents := totalEvents weeks in
  html "
      <div class='activity-header'>
        <span class='activity-title'>Activity (last 12 weeks)</span>
        <span class='activity-total'>" ++ show_Z totalEvents ++ html " events</span>
      </div>
      <svg width='100%' height='" ++ show_Z height ++ html "' viewBox='0 0 " ++ show_Z width ++ " " ++ show_Z height ++ html "' preserveAspectRatio='xMidYMid meet' class='contrib-svg'>
        " ++ bars ++ "
      </svg>
    ".

(** *** [buildHTML] and [render] *)

(** [buildHTML(profile, repos, contributions)].  [repos.sort] sorts the array
    in place: the second component is the array as the call leaves it. *)
Definition buildHTML `{Host} (now : Z) (profile : Profile) (repos : list Repo)
  (contributions : list Week) : string * list Repo :=
  let sorted := sort by_update repos in
  (profile_header profile ++ html "

        <div class='contrib-graph'>
          " ++ buildContributionGraph contributions ++ html "
        </div>

        <div class='search-container'>
          <input type='text' class='search' placeholder='Search repositories...'>
        </div>

        <div class='repos'>
          " ++ join (map (buildRepoCard now) sorted) ++ "
        </div>
      </div>
    ",
   sorted).

(** [render(user)]: three requests, sent before any is awaited; then the
    page, or the failure text when anything in [try] threw. *)
Definition render `{Host} (net : Network) (now : Z) (user : string) (w : World)
  : World :=
  let w := set_innerHTML (getStyles ++ loading_html) w in
  let w := send_all user w in
  match fetched_records net user with
  | Some (profile, repos, events) =>
      let contributions := buildContributionData now events in
      setupSearch
        (set_innerHTML (getStyles ++ fst (buildHTML now profile repos contributions)) w)
  | None => set_innerHTML (getStyles ++ failed_html) w
  end.

Definition connectedCallback `{Host} (net : Network) (now : Z)
  (user : option string) (w : World) : World :=
  Common.connectedCallback (render net now) user w.

End Contrib.

(** ** A host to run the definitions on *)

Module Sample.

Import Common.

(** Case mapping of the ASCII letters, character by character. *)
Fixpoint map_string (f : ascii -> ascii) (s : string) : string :=
  match s with
  | EmptyString => EmptyString
  | String c r => String (f c) (map_string f r)
  end.

Definition is_lower (c : ascii) : bool :=
  let n := nat_of_ascii c in (Nat.leb 97 n && Nat.leb n 122)%bool.

Definition upper (c : ascii) : ascii :=
  if is_lower c then ascii_of_nat (nat_of_ascii c - 32) else c.

(** A host in UTC.  Dates and fractions print as a fixed text, which no
    statement below reads; the search box is found where the text names its
    class. *)
(** How V8 prints the properties of [Object.prototype]. *)
Definition prototype_text (key : string) : string :=
  if String.eqb key "__proto__" then "[object Object]"
  else if String.eqb key "constructor" then "function Object() { [native code] }"
  else "function " ++ key ++ "() { [native code] }".

Definition host : Host := {|
  toLowerCase := map_string Dom.lower;
  toUpperCase := map_string upper;
  toLocaleDateString := fun _ => "Jan 1";
  number_toString := fun _ => "0";
  LocalTZA := fun _ _ => 0;
  inherited_text := prototype_text;
  querySelector_search := fun text => includes text (html "class='search'");
  getStyles := "<style></style>"
|}.

(** The same host in New York in the autumn of 2023: four hours behind UTC
    until 5 November, 06:00 UTC, and five hours behind from then on; a local
    time before 02:00 of that day is read as daylight saving time. *)
Definition new_york : Host := {|
  toLowerCase := map_string Dom.lower;
  toUpperCase := map_string upper;
  toLocaleDateString := fun _ => "Jan 1";
  number_toString := fun _ => "0";
  LocalTZA := fun t isUTC =>
    if isUTC
    then (if t <? 1699164000000 then -14400000 else -18000000)
    else (if t <? 1699149600000 then -14400000 else -18000000);
  inherited_text := prototype_text;
  querySelector_search := fun text => includes text (html "class='search'");
  getStyles := "<style></style>"
|}.

(** A user with two repositories, the older one first, and one event. *)
Definition profile : Profile :=
  {| html_url := "https://github.com/octocat";
     avatar_url := "https://avatars.githubusercontent.com/u/583231";
     login := "octocat"; name := Some "The Octocat"; bio := None;
     public_repos := 2; followers := 10; following := 1 |}.

Definition older : Repo :=
  {| repo_name := "Spoon-Knife";
     repo_html_url := "https://github.com/octocat/Spoon-Knife";
     description := Some "This repo is for demonstration purposes only.";
     language := Some "HTML"; stargazers_count := 12; forks_count := 140;
     fork := false; updated_at := 1700000000000 |}.

Definition newer : Repo :=
  {| repo_name := "Hello-World";
     repo_html_url := "https://github.com/octocat/Hello-World";
     description := None; language := None; stargazers_count := 0;
     forks_count := 0; fork := false; updated_at := 1700086400000 |}.

(** A repository whose description quotes a word. *)
Definition quoted : Repo :=
  {| repo_name := "demo";
     repo_html_url := "https://github.com/octocat/demo";
     description :=
       Some ("say " ++ String dquote "hi" ++ String dquote EmptyString);
     language := None; stargazers_count := 0; forks_count := 0;
     fork := false; updated_at := 1700000000000 |}.

Definition push : Event :=
  {| type := val "PushEvent"; repo := undefined; payload := undefined;
     created_at := 1700000000000 |}.

(** A star and a push on [octocat/Hello-World]. *)
Definition hello : js RepoRef := val {| ref_name := val "octocat/Hello-World" |}.

Definition watch : Event :=
  {| type := val "WatchEvent"; repo := hello; payload := undefined;
     created_at := 1700000000000 |}.

Definition pushed : Event :=
  {| type := val "PushEvent"; repo := hello;
     payload :=
       val {| head := val "7fd1a60b01f91b314f59955a4e4d4e80d8edf11d";
              ref_type := undefined; ref := val "refs/heads/main";
              action := undefined; number := undefined;
              pull_request := undefined; release := undefined |};
     created_at := 1700000000000 |}.

(** An event of two years before. *)
Definition stale : Event :=
  {| type := val "WatchEvent"; repo := undefined; payload := undefined;
     created_at := 1636900000000 |}.

(** The time of the pass: a day after [newer] was updated. *)
Definition now : Z := 1700172800000.

Definition answer {A : Type} (flag : bool) (a : A) : Fetch A :=
  Fulfilled {| ok := flag; body := Some a |}.

(** The API in good health, and the API with its events endpoint down. *)
Definition net : Network :=
  {| fetch_profile := fun _ => answer true profile;
     fetch_repos := fun _ => answer true [older; newer];
     fetch_events := fun _ => answer true [push] |}.

(** An API that answers the request for 100 repositories with 101. *)
Definition crowded : Network :=
  {| fetch_profile := fun _ => answer true profile;
     fetch_repos := fun _ => answer true (repeat older 101);
     fetch_events := fun _ => answer true [push] |}.

Definition net_events_down : Network :=
  {| fetch_profile := fun _ => answer true profile;
     fetch_repos := fun _ => answer true [older; newer];
     fetch_events := fun _ => Fulfilled {| ok := false; body := None |} |}.

End Sample.

(** ** The vocabulary of the statements *)

Module Statements.

Import Common.

(** The URL asks for pages of [n] records. *)
Definition asks_page_size (url : string) (n : Z) : Prop :=
  exists base, url = base ++ "per_page=" ++ show_Z n.

(** The API never answers a request for pages of [n] records with more. *)
Definition honours_page_size (net : Network) (n : Z) : Prop :=
  (forall url r l, asks_page_size url n ->
     fetch_repos net url = Fulfilled r -> body r = Some l ->
     Z.of_nat (List.length l) <= n) /\
  (forall url r l, asks_page_size url n ->
     fetch_events net url = Fulfilled r -> body r = Some l ->
     Z.of_nat (List.length l) <= n).

(** The order of the repository section: no card is older than the one
    before it. *)
Definition newer_first (a b : Repo) : Prop := updated_at b <= updated_at a.

(** The repository section of a page: the [<div class="repos">] element
    with the cards of [ordered], in that order. *)
Definition repos_section `{Host} (now : Z) (ordered : list Repo) : string :=
  html "<div class='repos'>
          " ++ join (map (buildRepoCard now) ordered) ++ "
        </div>".

(** The page lists the cards of [repos] by date: its repository section
    holds their cards in an order where none is older than the one before. *)
Definition lists_cards_by_date `{Host} (now : Z) (page : string)
  (repos : list Repo) : Prop :=
  exists ordered,
    Permutation repos ordered /\
    StronglySorted newer_first ordered /\
    Substring (repos_section now ordered) page.

(** The response came, and its [ok] flag is false. *)
Definition not_ok {A : Type} (f : Fetch A) : Prop :=
  exists r, f = Fulfilled r /\ ok r = false.

(** The response came with its [ok] flag true, and [json()] rejects. *)
Definition json_throws {A : Type} (f : Fetch A) : Prop :=
  exists r, f = Fulfilled r /\ ok r = true /\ body r = None.

(** What makes a pass over three endpoints fail: a fetch that rejects, a
    profile or repository response that is not [ok], or a body that does not
    parse. *)
Definition Fails (net : Network) (user : string) : Prop :=
  fetch_profile net (profile_url user) = Rejected \/
  fetch_repos net (repos_url user) = Rejected \/
  fetch_events net (events_url user) = Rejected \/
  not_ok (fetch_profile net (profile_url user)) \/
  not_ok (fetch_repos net (repos_url user)) \/
  json_throws (fetch_profile net (profile_url user)) \/
  json_throws (fetch_repos net (repos_url user)) \/
  json_throws (fetch_events net (events_url user)).

(** The counts of the weeks, summed from the right. *)
Definition sum_counts (weeks : list Contrib.Week) : Z :=
  fold_right (fun w s => Contrib.count w + s) 0 weeks.

(** The weeks with the events counted as the loops count them: the first
    week takes the events whose date lies in its window, the second week
    those of the remaining events that lie in its window, and so on; an
    event in no window is counted nowhere. *)
Fixpoint tally `{Host} (events : list Event) (weeks : list Contrib.Week)
  : list Contrib.Week :=
  match weeks with
  | [] => []
  | w :: rest =>
      {| Contrib.start := Contrib.start w;
         Contrib.count :=
           Contrib.count w
           + Z.of_nat (List.length
                         (filter (fun e => Contrib.in_week (created_at e) w)
                            events));
         Contrib.label := Contrib.label w |}
      :: tally (filter (fun e => negb (Contrib.in_week (created_at e) w)) events)
           rest
  end.

(** *** The sentences of the log, said from the fields of the event *)

(** The full name of the repository of an event: [repo.name] when it is a
    non-empty string, and [unknown] otherwise. *)
Definition shown_full (event : Event) : string :=
  match repo event with
  | val r =>
      match ref_name r with
      | val (String c s) => String c s
      | _ => "unknown"
      end
  | _ => "unknown"
  end.

(** The text up to the first slash, and the text after it. *)
Fixpoint before_slash (s : string) : string :=
  match s with
  | EmptyString => EmptyString
  | String c r => if Ascii.eqb c "/" then EmptyString else String c (before_slash r)
  end.

Fixpoint after_slash (s : string) : option string :=
  match s with
  | EmptyString => None
  | String c r => if Ascii.eqb c "/" then Some r else after_slash r
  end.

(** The short name of a repository: what stands between the first slash and
    the second, and the full name where there is no such text. *)
Definition shown_short (full : string) : string :=
  match after_slash full with
  | Some rest =>
      match before_slash rest with
      | EmptyString => full
      | short => short
      end
  | None => full
  end.

(** The link to a repository, and the link that ends some sentences. *)
Definition anchor (href text : string) : string :=
  html "<a href='" ++ href ++ html "' target='_blank' rel='noopener'>" ++ text ++ "</a>".

Definition hash_anchor (href text : string) : string :=
  html " <a href='" ++ href ++ html "' target='_blank' rel='noopener' class='commit-hash'>" ++ text ++ "</a>".

(** A property as a template literal prints it. *)
Definition printed (x : js string) : string :=
  match x with
  | undefined => "undefined"
  | null => "null"
  | val s => s
  end.

(** An action with its first letter in upper case; nothing for no action. *)
Definition capital `{Host} (x : js string) : string :=
  match x with
  | val (String c s) => toUpperCase (String c EmptyString) ++ s
  | _ => EmptyString
  end.

(** The link to a pull request, for a number that is not 0. *)
Definition pull_anchor (url : string) (n : js Z) : string :=
  match n with
  | val k =>
      if k =? 0 then EmptyString
      else hash_anchor (url ++ "/pull/" ++ show_Z k) ("#" ++ show_Z k)
  | _ => EmptyString
  end.

End Statements.

(** ** More vocabulary: what the further properties speak of *)

Module Notions.

Import Common.

(** The events of a list that fall into the window of a week. *)
Definition events_in `{Host} (w : Contrib.Week) (events : list Event)
  : list Event :=
  filter (fun e => Contrib.in_week (created_at e) w) events.

(** A week with the events of a list counted into it. *)
Definition counted `{Host} (events : list Event) (w : Contrib.Week)
  : Contrib.Week :=
  {| Contrib.start := Contrib.start w;
     Contrib.count := Contrib.count w + Z.of_nat (List.length (events_in w events));
     Contrib.label := Contrib.label w |}.

(** The time span of the chart: from the start of the first of the twelve
    weeks to the end of the window of the current week, the end excluded. *)
Definition first_start `{Host} (today : Z) : Z :=
  Contrib.start (Contrib.week_of today 11).

Definition chart_end `{Host} (today : Z) : Z :=
  Contrib.weekEnd (Contrib.week_of today 0).

Definition in_chart `{Host} (today : Z) (e : Event) : bool :=
  (first_start today <=? created_at e) && (created_at e <? chart_end today).

(** The windows of the weeks follow one another without overlap. *)
Definition spaced `{Host} (weeks : list Contrib.Week) : Prop :=
  StronglySorted (fun a b => Contrib.weekEnd a <= Contrib.start b) weeks.

(** The windows of the weeks follow one another without a gap and without
    overlap, from [s]: each starts where the one before ends, and none ends
    before it starts. *)
Fixpoint contiguous `{Host} (s : Z) (weeks : list Contrib.Week) : Prop :=
  match weeks with
  | [] => True
  | w :: rest =>
      Contrib.start w = s /\ s <= Contrib.weekEnd w /\
      contiguous (Contrib.weekEnd w) rest
  end.

(** Where a run of weeks that starts at [s] ends. *)
Fixpoint span_end `{Host} (s : Z) (weeks : list Contrib.Week) : Z :=
  match weeks with
  | [] => s
  | w :: rest => span_end (Contrib.weekEnd w) rest
  end.

(** How many of the weeks hold a date. *)
Definition hits `{Host} (d : Z) (weeks : list Contrib.Week) : Z :=
  fold_right (fun w n => (if Contrib.in_week d w then 1 else 0) + n) 0 weeks.

(** The weeks as the first loop of [buildContributionData] leaves them. *)
Definition initial_weeks `{Host} (today : Z) : list Contrib.Week :=
  map (Contrib.week_of today) (Contrib.countdown 12).

(** A card element that carries both attributes the listener reads. *)
Definition has_datasets (card : Dom.Element) : Prop :=
  Dom.dataset "name" card <> None /\ Dom.dataset "desc" card <> None.

(** What the listener decides for a card: shown or hidden ([false] too
    where the listener throws). *)
Definition shows `{Host} (value : string) (card : Dom.Element) : bool :=
  match card_match (toLowerCase value) card with
  | Some m => m
  | None => false
  end.

(** What makes a pass of the basic variant fail: the profile or the
    repository fetch rejects, is not [ok], or has a body that does not
    parse. *)
Definition BasicFails (net : Network) (user : string) : Prop :=
  fetch_profile net (profile_url user) = Rejected \/
  fetch_repos net (repos_url user) = Rejected \/
  Statements.not_ok (fetch_profile net (profile_url user)) \/
  Statements.not_ok (fetch_repos net (repos_url user)) \/
  Statements.json_throws (fetch_profile net (profile_url user)) \/
  Statements.json_throws (fetch_repos net (repos_url user)).

(** The address of the API that every request goes to. *)
Definition api : string := "https://api.github.com/users/".

(** A text without a slash. *)
Fixpoint slash_free (s : string) : bool :=
  match s with
  | EmptyString => true
  | String c r => negb (Ascii.eqb c "/") && slash_free r
  end.

(** The link the log shows for an event whose repository is not known. *)
Definition unknown_link : string :=
  html "<a href='https://github.com/unknown' target='_blank' rel='noopener'>unknown</a>".

(** A colour as the style sheet writes it: [#] and six more characters. *)
Definition is_colour (c : string) : bool :=
  match c with
  | String "#" rest => Nat.eqb (String.length rest) 6
  | _ => false
  end.

End Notions.

(** * Properties *)

Import Common Statements.

(** ** [timeAgo] *)

Section TimeAgo.

Lemma fits_once (seconds secs : Z) :
  0 < secs -> (1 <=? seconds / secs) = (secs <=? seconds).
Proof.
  intros Hpos.
  destruct (Z.leb_spec secs seconds) as [Hle | Hlt].
  - apply Z.leb_le. apply Z.div_le_lower_bound; lia.
  - apply Z.leb_gt. apply Z.div_lt_upper_bound; lia.
Qed.

(** The loop, read off interval by interval. *)
Lemma timeAgo_loop_cons (seconds secs : Z) (label : string) rest :
  0 < secs ->
  timeAgo_loop seconds ((label, secs) :: rest) =
  if secs <=? seconds
  then show_Z (seconds / secs) ++ " " ++ label
         ++ (if 1 <? seconds / secs then "s" else "") ++ " ago"
  else timeAgo_loop seconds rest.
Proof.
  intros Hpos. simpl. rewrite (fits_once seconds secs Hpos). reflexivity.
Qed.

Ltac interval_case s n :=
  rewrite timeAgo_loop_cons by lia;
  destruct (Z.leb_spec n s) as [? | ?].

Ltac largest_fit :=
  intros l' s' Hin Hfit; simpl in Hin;
  repeat (destruct Hin as [Heq | Hin];
          [ injection Heq as <- <-; lia | ]);
  contradiction.

(** C3: a date at least 60 seconds old is told as the count of the largest
    interval (year, month, day, hour, minute) that fits into the elapsed
    whole seconds, with the floor of the quotient as the count and a plural
    "s" exactly when the count exceeds one; a date less than 60 seconds old
    is "just now". *)
Theorem timeAgo_largest_interval (now date : Z) :
  let seconds := (now - date) / 1000 in
  (60000 <= now - date ->
   exists (label : string) (secs : Z),
     In (label, secs) intervals /\
     secs <= seconds /\
     (forall l' s', In (l', s') intervals -> s' <= seconds -> s' <= secs) /\
     timeAgo now date =
       show_Z (seconds / secs) ++ " " ++ label
         ++ (if 1 <? seconds / secs then "s" else "") ++ " ago")
  /\ (now - date < 60000 -> timeAgo now date = "just now").
Proof.
  intros seconds. unfold timeAgo. fold seconds. unfold intervals. split.
  - intros Hold.
    assert (Hs : 60 <= seconds)
      by (unfold seconds; apply Z.div_le_lower_bound; lia).
    interval_case seconds 31536000.
    { exists "year", 31536000. repeat split; simpl; auto; largest_fit. }
    interval_case seconds 2592000.
    { exists "month", 2592000. repeat split; simpl; auto; largest_fit. }
    interval_case seconds 86400.
    { exists "day", 86400. repeat split; simpl; auto 6; largest_fit. }
    interval_case seconds 3600.
    { exists "hour", 3600. repeat split; simpl; auto 6; largest_fit. }
    interval_case seconds 60.
    { exists "minute", 60. repeat split; simpl; auto 8; largest_fit. }
    lia.
  - intros Hyoung.
    assert (Hs : seconds < 60)
      by (unfold seconds; apply Z.div_lt_upper_bound; lia).
    repeat (rewrite timeAgo_loop_cons by lia;
            match goal with
            | |- context [?n <=? seconds] =>
                destruct (Z.leb_spec n seconds); [ lia | ]
            end).
    reflexivity.
Qed.

(** Three days and five hours ago, and half a minute ago. *)
Lemma timeAgo_largest_interval_witness :
  (exists (label : string) (secs : Z),
     In (label, secs) intervals /\
     secs <= 277200 /\
     (forall l' s', In (l', s') intervals -> s' <= 277200 -> s' <= secs) /\
     timeAgo 1000000000000 999722800000 =
       show_Z (277200 / secs) ++ " " ++ label
         ++ (if 1 <? 277200 / secs then "s" else "") ++ " ago")
  /\ timeAgo 1000000000000 999999970000 = "just now".
Proof.
  split.
  - apply (proj1 (timeAgo_largest_interval 1000000000000 999722800000)). lia.
  - apply (proj2 (timeAgo_largest_interval 1000000000000 999999970000)). lia.
Defined.

End TimeAgo.

(** ** The sort *)

Section Sorting.

Lemma insert_perm {A : Type} (cmp : A -> A -> Z) (x : A) (l : list A) :
  Permutation (x :: l) (insert cmp x l).
Proof.
  induction l as [| y l IH]; simpl; [ reflexivity | ].
  destruct (cmp x y <=? 0); [ reflexivity | ].
  rewrite perm_swap. now apply perm_skip.
Qed.

Lemma sort_perm {A : Type} (cmp : A -> A -> Z) (l : list A) :
  Permutation l (sort cmp l).
Proof.
  induction l as [| x l IH]; simpl; [ reflexivity | ].
  rewrite <- insert_perm. now apply perm_skip.
Qed.

Lemma newer_first_trans (a b c : Repo) :
  newer_first a b -> newer_first b c -> newer_first a c.
Proof. unfold newer_first. lia. Qed.

Lemma insert_newer_first (x : Repo) (l : list Repo) :
  StronglySorted newer_first l ->
  StronglySorted newer_first (insert by_update x l).
Proof.
  induction 1 as [| y l Hsorted IH Hall]; simpl.
  - constructor; constructor.
  - unfold by_update at 1. destruct (Z.leb_spec (updated_at y - updated_at x) 0) as [Hle | Hgt].
    + constructor; [ now constructor | ].
      assert (Hxy : newer_first x y) by (unfold newer_first; lia).
      constructor; [ exact Hxy | ].
      eapply Forall_impl; [ | exact Hall ].
      intros z Hyz. exact (newer_first_trans _ _ _ Hxy Hyz).
    + constructor; [ exact IH | ].
      apply (Permutation_Forall (insert_perm by_update x l)).
      constructor; [ unfold newer_first; lia | exact Hall ].
Qed.

Lemma sort_newer_first (l : list Repo) :
  StronglySorted newer_first (sort by_update l).
Proof.
  induction l as [| x l IH]; simpl; [ constructor | ].
  now apply insert_newer_first.
Qed.

(** A sorted array is left as it is. *)
Lemma sort_sorted_id (l : list Repo) :
  StronglySorted newer_first l -> sort by_update l = l.
Proof.
  induction 1 as [| x l Hsorted IH Hall]; simpl; [ reflexivity | ].
  rewrite IH. destruct l as [| y l]; simpl; [ reflexivity | ].
  inversion Hall as [| ? ? Hxy _]; subst.
  unfold by_update at 1. unfold newer_first in Hxy.
  destruct (Z.leb_spec (updated_at y - updated_at x) 0); [ reflexivity | lia ].
Qed.

Lemma sort_idempotent (l : list Repo) :
  sort by_update (sort by_update l) = sort by_update l.
Proof. apply sort_sorted_id, sort_newer_first. Qed.

End Sorting.

(** ** Strings and lists *)

Section Strings.

Lemma append_nil_r (s : string) : s ++ "" = s.
Proof. induction s as [| c s IH]; simpl; [ reflexivity | now rewrite IH ]. Qed.

Lemma append_assoc (a b c : string) : (a ++ b) ++ c = a ++ (b ++ c).
Proof. induction a as [| x a IH]; simpl; [ reflexivity | now rewrite IH ]. Qed.

Lemma append_inv_head (s a b : string) : s ++ a = s ++ b -> a = b.
Proof.
  induction s as [| c s IH]; simpl; intros Heq; [ exact Heq | ].
  injection Heq as Heq. auto.
Qed.

Lemma startsWith_prefix (s p : string) :
  startsWith s p = true <-> exists post, s = p ++ post.
Proof.
  revert s. induction p as [| a p IH]; intros s; simpl.
  - split; [ intros _; now exists s | reflexivity ].
  - destruct s as [| b s].
    + split; [ discriminate | intros [post Hpost]; discriminate ].
    + rewrite andb_true_iff, Ascii.eqb_eq, IH. split.
      * intros [-> [post ->]]. now exists post.
      * intros [post Hpost]. injection Hpost as -> ->. split; eauto.
Qed.

(** [includes] decides [Substring]. *)
Lemma includes_Substring (s q : string) :
  includes s q = true <-> Substring q s.
Proof.
  unfold Substring. induction s as [| c s IH].
  - simpl. rewrite orb_false_r, startsWith_prefix. split.
    + intros [post Hpost]. now exists "", post.
    + intros (pre & post & Heq). destruct pre; [ now exists post | discriminate ].
  - change (includes (String c s) q)
      with (startsWith (String c s) q || includes s q)%bool.
    rewrite orb_true_iff, startsWith_prefix, IH. split.
    + intros [[post Hpost] | (pre & post & ->)].
      * now exists "", post.
      * now exists (String c pre), post.
    + intros (pre & post & Heq). destruct pre as [| x pre].
      * left. now exists post.
      * right. injection Heq as -> ->. now exists pre, post.
Qed.

Lemma includes_empty (s : string) : includes s "" = true.
Proof. destruct s; reflexivity. Qed.

Lemma Substring_skip (a q s : string) : Substring q s -> Substring q (a ++ s).
Proof.
  intros (pre & post & ->). exists (a ++ pre), post. now rewrite append_assoc.
Qed.

Lemma Substring_app_l (q s r : string) : Substring q s -> Substring q (s ++ r).
Proof.
  intros (pre & post & ->). exists pre, (post ++ r). now rewrite !append_assoc.
Qed.

Lemma Substring_head (q post : string) : Substring q (q ++ post).
Proof. now exists "", post. Qed.

Lemma Substring_mid (a1 a2 x b1 b2 rest a b : string) :
  a = a1 ++ a2 -> b = b1 ++ b2 ->
  Substring (a2 ++ x ++ b1) (a ++ x ++ b ++ rest).
Proof.
  intros -> ->. exists a1, (b2 ++ rest). now rewrite !append_assoc.
Qed.

(** A text found in the fixed part in front. *)
Lemma Substring_literal (a q rest : string) :
  includes a q = true -> Substring q (a ++ rest).
Proof. intros Hin. apply Substring_app_l. now apply includes_Substring. Qed.

Lemma Substring_three (a b c q rest : string) :
  includes (a ++ b ++ c) q = true -> Substring q (a ++ b ++ c ++ rest).
Proof.
  intros Hin. rewrite <- (append_assoc b c rest), <- (append_assoc a).
  now apply Substring_literal.
Qed.

End Strings.

(** ** [connectedCallback] and [render] *)

Section Render.

Context `{Host}.

Variables (net : Network) (now : Z).

Lemma fetched_set_innerHTML (s : string) (w : World) :
  fetched (set_innerHTML s w) = fetched w.
Proof. reflexivity. Qed.

Lemma connectedCallback_falsy (render : string -> World -> World)
  (user : option string) (w : World) :
  user = None \/ user = Some "" ->
  Common.connectedCallback render user w = set_innerHTML missing_user_html w.
Proof. intros [-> | ->]; reflexivity. Qed.

(** C9: with the [user] attribute absent or empty, [connectedCallback] writes
    the message [Error: Missing "user" attribute] into the shadow root and
    returns; [render] does not run, and no request is sent.  The three
    variants agree. *)
Theorem connectedCallback_missing_user (user : option string) (w : World) :
  user = None \/ user = Some "" ->
  let message := html "<p style='color: #f85149;'>Error: Missing 'user' attribute</p>" in
  (innerHTML (Contrib.connectedCallback net now user w) = message /\
   fetched (Contrib.connectedCallback net now user w) = fetched w) /\
  (innerHTML (Activity.connectedCallback net now user w) = message /\
   fetched (Activity.connectedCallback net now user w) = fetched w) /\
  (innerHTML (Basic.connectedCallback net now user w) = message /\
   fetched (Basic.connectedCallback net now user w) = fetched w) /\
  fetched (Contrib.connectedCallback net now user constructed) = [].
Proof.
  intros Hfalsy message.
  unfold Contrib.connectedCallback, Activity.connectedCallback,
    Basic.connectedCallback.
  rewrite !connectedCallback_falsy by exact Hfalsy.
  repeat split.
Qed.

(** *** The requests of one pass *)

Lemma repos_url_page_size (user : string) : asks_page_size (repos_url user) 100.
Proof.
  exists ("https://api.github.com/users/" ++ user ++ "/repos?sort=updated&").
  unfold repos_url. rewrite !append_assoc. reflexivity.
Qed.

Lemma events_url_page_size (user : string) : asks_page_size (events_url user) 100.
Proof.
  exists ("https://api.github.com/users/" ++ user ++ "/events?").
  unfold events_url. rewrite !append_assoc. reflexivity.
Qed.

Lemma render_fetched (user : string) (w : World) :
  fetched (Contrib.render net now user w) =
  (fetched w ++ [profile_url user; repos_url user; events_url user])%list.
Proof.
  unfold Contrib.render.
  assert (Hsent : fetched (send_all user (set_innerHTML (getStyles ++ loading_html) w))
                  = (fetched w ++ [profile_url user; repos_url user; events_url user])%list).
  { unfold send_all, send. simpl. now rewrite <- !app_assoc. }
  destruct (fetched_records net user) as [[[profile repos] events] |];
    simpl; exact Hsent.
Qed.

(** What [fetched_records] returns is what the three responses hold. *)
Lemma fetched_records_inv (user : string) profile repos events :
  fetched_records net user = Some (profile, repos, events) ->
  exists pr rr er,
    fetch_profile net (profile_url user) = Fulfilled pr /\
    fetch_repos net (repos_url user) = Fulfilled rr /\
    fetch_events net (events_url user) = Fulfilled er /\
    ok pr = true /\ ok rr = true /\
    body pr = Some profile /\ body rr = Some repos /\
    (if ok er then body er = Some events else events = []).
Proof.
  unfold fetched_records, await, json, bind, ret, throw.
  destruct (fetch_profile net (profile_url user)) as [| [ok1 b1]]; [ discriminate | ].
  destruct (fetch_repos net (repos_url user)) as [| [ok2 b2]]; [ discriminate | ].
  destruct (fetch_events net (events_url user)) as [| [ok3 b3]]; [ discriminate | ].
  simpl. destruct ok1, ok2; simpl; try discriminate.
  destruct b1 as [p |]; [ | discriminate ].
  destruct b2 as [r |]; [ | discriminate ].
  destruct ok3; simpl.
  - destruct b3 as [e |]; [ | discriminate ].
    intros [= -> -> ->]. exists {| ok := true; body := Some profile |},
      {| ok := true; body := Some repos |}, {| ok := true; body := Some events |}.
    simpl. repeat split.
  - intros [= -> -> ->]. exists {| ok := true; body := Some profile |},
      {| ok := true; body := Some repos |}, {| ok := false; body := b3 |}.
    simpl. repeat split.
Qed.

Lemma render_innerHTML (user : string) (w : World) :
  innerHTML (Contrib.render net now user w) =
  match fetched_records net user with
  | Some (profile, repos, events) =>
      getStyles ++ fst (Contrib.buildHTML now profile repos
                          (Contrib.buildContributionData now events))
  | None => getStyles ++ failed_html
  end.
Proof.
  unfold Contrib.render.
  destruct (fetched_records net user) as [[[profile repos] events] |];
    reflexivity.
Qed.

(** C6, as the code has it: one pass sends one request per endpoint, the
    profile, the repositories and the events, and no other; the last two ask
    for pages of 100 records; the pass reads every record of the two
    answers and builds the page from them, so it reads at most 100
    repositories and 100 events where the API honours the page size, and
    more where it does not: nothing in the pass cuts a list. *)
Theorem render_one_page_per_endpoint (user : string) (w : World) :
  fetched (Contrib.render net now user w) =
    (fetched w ++ [profile_url user; repos_url user; events_url user])%list /\
  repos_url user =
    "https://api.github.com/users/" ++ user ++ "/repos?sort=updated&per_page=100" /\
  events_url user =
    "https://api.github.com/users/" ++ user ++ "/events?per_page=100" /\
  (forall profile repos events,
     fetched_records net user = Some (profile, repos, events) ->
     (exists rr, fetch_repos net (repos_url user) = Fulfilled rr /\
                 body rr = Some repos) /\
     (exists er, fetch_events net (events_url user) = Fulfilled er /\
                 if ok er then body er = Some events else events = []) /\
     innerHTML (Contrib.render net now user w) =
       getStyles ++ fst (Contrib.buildHTML now profile repos
                           (Contrib.buildContributionData now events))) /\
  (honours_page_size net 100 ->
   forall profile repos events,
     fetched_records net user = Some (profile, repos, events) ->
     (List.length repos <= 100)%nat /\ (List.length events <= 100)%nat).
Proof.
  split; [ apply render_fetched | ].
  split; [ reflexivity | ]. split; [ reflexivity | ]. split.
  - intros profile repos events Hrec.
    destruct (fetched_records_inv user _ _ _ Hrec)
      as (pr & rr & er & _ & Hr & He & _ & _ & _ & Hbr & Hbe).
    split; [ now exists rr | ]. split; [ now exists er | ].
    now rewrite render_innerHTML, Hrec.
  - intros [Hrepos Hevents] profile repos events Hrec.
    destruct (fetched_records_inv user _ _ _ Hrec)
      as (pr & rr & er & _ & Hr & He & _ & _ & _ & Hbr & Hbe).
    split.
    + pose proof (Hrepos _ _ _ (repos_url_page_size user) Hr Hbr). lia.
    + destruct (ok er).
      * pose proof (Hevents _ _ _ (events_url_page_size user) He Hbe). lia.
      * subst events. simpl. lia.
Qed.

Lemma activity_render_innerHTML (user : string) (w : World) :
  innerHTML (Activity.render net now user w) =
  match fetched_records net user with
  | Some (profile, repos, events) =>
      getStyles ++ fst (Activity.buildHTML now profile repos events)
  | None => getStyles ++ failed_html
  end.
Proof.
  unfold Activity.render.
  destruct (fetched_records net user) as [[[profile repos] events] |];
    reflexivity.
Qed.

(** C7: the text a pass leaves in the shadow root is the style sheet and the
    page built from the records of this pass (or the failure text), whatever
    the shadow root held before; and a second run of [buildHTML] on the same
    profile, buckets and repository array, which the first run has sorted in
    place, returns the same text and leaves the array as it is. *)
Theorem render_depends_on_fetched_records_only (user : string) :
  (forall w : World,
     innerHTML (Contrib.render net now user w) =
     match fetched_records net user with
     | Some (profile, repos, events) =>
         getStyles ++ fst (Contrib.buildHTML now profile repos
                             (Contrib.buildContributionData now events))
     | None => getStyles ++ failed_html
     end) /\
  (forall w1 w2 : World,
     innerHTML (Contrib.render net now user w1) =
     innerHTML (Contrib.render net now user w2)) /\
  (forall profile repos contributions,
     Contrib.buildHTML now profile
       (snd (Contrib.buildHTML now profile repos contributions)) contributions =
     Contrib.buildHTML now profile repos contributions).
Proof.
  split; [ | split ].
  - intros w. apply render_innerHTML.
  - intros w1 w2. now rewrite !render_innerHTML.
  - intros profile repos contributions. unfold Contrib.buildHTML. simpl snd.
    now rewrite sort_idempotent.
Qed.

(** *** Failure *)

Lemma page_not_failed (page : string) :
  first_char page = Some "010"%char ->
  getStyles ++ page <> getStyles ++ failed_html.
Proof.
  intros Hfirst Heq. apply append_inv_head in Heq. subst page. discriminate.
Qed.

Lemma fetched_records_fails (user : string) :
  fetched_records net user = None <-> Fails net user.
Proof.
  unfold Fails, not_ok, json_throws, fetched_records, await, json, bind, ret, throw.
  destruct (fetch_profile net (profile_url user)) as [| [ok1 b1]];
    [ split; auto | ].
  destruct (fetch_repos net (repos_url user)) as [| [ok2 b2]];
    [ split; auto | ].
  destruct (fetch_events net (events_url user)) as [| [ok3 b3]];
    [ split; auto | ].
  destruct ok1; simpl;
    [ | split; [ intros _ | reflexivity ]; do 3 right; left; eexists; split; reflexivity ].
  destruct ok2; simpl;
    [ | split; [ intros _ | reflexivity ]; do 4 right; left; eexists; split; reflexivity ].
  destruct b1 as [profile |]; simpl;
    [ | split; [ intros _ | reflexivity ]; do 5 right; left; eexists; repeat split ].
  destruct b2 as [repos |]; simpl;
    [ | split; [ intros _ | reflexivity ]; do 6 right; left; eexists; repeat split ].
  destruct ok3, b3 as [events |]; simpl;
    try (split; [ discriminate | ];
         intros [Hf | [Hf | [Hf | [Hf | [Hf | [Hf | [Hf | Hf]]]]]]];
         try discriminate;
         destruct Hf as (r & Heq & Hr); injection Heq as <-; simpl in Hr;
         try discriminate; destruct Hr; discriminate).
  split; [ intros _ | reflexivity ]. do 7 right. eexists; repeat split.
Qed.

End Render.

(** An element without the attribute, just constructed. *)
Lemma connectedCallback_missing_user_witness :
  innerHTML (@Contrib.connectedCallback Sample.host Sample.net Sample.now None constructed)
    = html "<p style='color: #f85149;'>Error: Missing 'user' attribute</p>"
  /\ fetched (@Contrib.connectedCallback Sample.host Sample.net Sample.now None constructed)
    = [].
Proof.
  pose proof (@connectedCallback_missing_user Sample.host Sample.net Sample.now
                None constructed (or_introl eq_refl)) as Hthm.
  split; [ exact (proj1 (proj1 Hthm)) | exact (proj2 (proj2 (proj2 Hthm))) ].
Defined.

(** The sample API answers with two repositories and one event. *)
Lemma render_one_page_per_endpoint_witness :
  fetched (@Contrib.render Sample.host Sample.net Sample.now "octocat" constructed) =
    [ "https://api.github.com/users/octocat";
      "https://api.github.com/users/octocat/repos?sort=updated&per_page=100";
      "https://api.github.com/users/octocat/events?per_page=100" ] /\
  (forall profile repos events,
     fetched_records Sample.net "octocat" = Some (profile, repos, events) ->
     (List.length repos <= 100)%nat /\ (List.length events <= 100)%nat).
Proof.
  assert (Hpage : honours_page_size Sample.net 100).
  { split; intros url r l _ Hfetch Hbody;
      injection Hfetch as <-; injection Hbody as <-; simpl; lia. }
  pose proof (@render_one_page_per_endpoint Sample.host Sample.net Sample.now
                "octocat" constructed) as Hthm.
  split; [ exact (proj1 Hthm) | ].
  exact (proj2 (proj2 (proj2 (proj2 Hthm))) Hpage).
Defined.

(** C6, as it is stated, fails where the API answers one request with more
    than 100 records: the pass reads all 101 repositories of the answer. *)
Lemma render_reads_whole_answer :
  ~ (forall (net : Network) (user : string) profile repos events,
       fetched_records net user = Some (profile, repos, events) ->
       (List.length repos <= 100)%nat /\ (List.length events <= 100)%nat).
Proof.
  intros Hclaim.
  destruct (Hclaim Sample.crowded "octocat" Sample.profile
              (repeat Sample.older 101) [Sample.push] eq_refl) as [Hrepos _].
  rewrite repeat_length in Hrepos. lia.
Qed.

(** ** The order of the cards *)

Section Cards.

Context `{Host}.

Variable now : Z.

(** A template that ends with the opening of the section, and one that
    starts with its end, around the cards. *)
Lemma section_in_page (before opening cards closing : string) :
  let open := html "<div class='repos'>
          " in
  let close := "
        </div>" in
  substring 0 (String.length opening - String.length open) opening ++ open = opening ->
  close ++ substring (String.length close)
             (String.length closing - String.length close) closing = closing ->
  forall ordered, cards = join (map (buildRepoCard now) ordered) ->
  Substring (repos_section now ordered) (before ++ opening ++ cards ++ closing).
Proof.
  intros open close Hopen Hclose ordered ->.
  exists (before ++ substring 0 (String.length opening - String.length open) opening),
    (substring (String.length close)
       (String.length closing - String.length close) closing).
  unfold repos_section. fold open. fold close.
  rewrite <- Hopen at 1. rewrite <- Hclose at 1.
  now rewrite !append_assoc.
Qed.

Lemma contrib_section (profile : Profile) (repos : list Repo) contributions :
  Substring (repos_section now (sort by_update repos))
    (fst (Contrib.buildHTML now profile repos contributions)).
Proof.
  unfold Contrib.buildHTML. cbn [fst].
  rewrite <- (append_assoc (profile_header profile)).
  rewrite <- (append_assoc (profile_header profile ++ _)).
  apply section_in_page; reflexivity.
Qed.

Lemma activity_section (profile : Profile) (repos : list Repo) events :
  Substring (repos_section now (sort by_update repos))
    (fst (Activity.buildHTML now profile repos events)).
Proof.
  unfold Activity.buildHTML. cbn [fst].
  rewrite <- (append_assoc (profile_header profile)).
  rewrite <- (append_assoc (profile_header profile ++ _)).
  apply section_in_page; reflexivity.
Qed.

Lemma basic_section (profile : Profile) (repos : list Repo) :
  Substring (repos_section now repos) (Basic.buildHTML now profile repos).
Proof.
  unfold Basic.buildHTML.
  apply section_in_page; reflexivity.
Qed.

(** C1, as the code has it: [buildHTML] of [gitglue.js] and of the variant
    with the activity log list the cards by date, newest first, whatever the
    order of the array they are given; [buildHTML] of the basic variant lists
    the cards in the order of the array. *)
Theorem buildHTML_cards_by_date (profile : Profile) (repos : list Repo) :
  (forall contributions,
     lists_cards_by_date now
       (fst (Contrib.buildHTML now profile repos contributions)) repos) /\
  (forall events,
     lists_cards_by_date now
       (fst (Activity.buildHTML now profile repos events)) repos) /\
  Substring (repos_section now repos) (Basic.buildHTML now profile repos).
Proof.
  split; [ | split ].
  - intros contributions. exists (sort by_update repos).
    split; [ apply sort_perm | ]. split; [ apply sort_newer_first | ].
    apply contrib_section.
  - intros events. exists (sort by_update repos).
    split; [ apply sort_perm | ]. split; [ apply sort_newer_first | ].
    apply activity_section.
  - apply basic_section.
Qed.

End Cards.

(** C1, as it is stated, fails on the basic variant: given the older
    repository first, its page lists the older card first. *)
Lemma basic_buildHTML_keeps_input_order :
  ~ (forall (host : Host) (now : Z) (profile : Profile) (repos : list Repo),
       @lists_cards_by_date host now
         (@Basic.buildHTML host now profile repos) repos).
Proof.
  intros Hclaim.
  destruct (Hclaim Sample.host Sample.now Sample.profile
              [Sample.older; Sample.newer])
    as (ordered & Hperm & Hsorted & Hsub).
  apply Permutation_length_2_inv in Hperm. destruct Hperm as [-> | ->].
  - inversion Hsorted as [| ? ? _ Hall]; subst.
    inversion Hall as [| ? ? Hnewer _]; subst.
    unfold newer_first in Hnewer. simpl in Hnewer. lia.
  - apply includes_Substring in Hsub. vm_compute in Hsub. discriminate.
Qed.

(** ** A pass without the events *)

Section Failure.

Context `{Host}.

Variables (net : Network) (now : Z).

(** A text that ends the fixed part in front and begins the fixed part
    behind, around [x]. *)
Lemma Substring_around (a2 b1 a x b rest : string) :
  substring 0 (String.length a - String.length a2) a ++ a2 = a ->
  b1 ++ substring (String.length b1) (String.length b - String.length b1) b = b ->
  Substring (a2 ++ x ++ b1) (a ++ x ++ b ++ rest).
Proof.
  intros Ha Hb. eapply Substring_mid; symmetry; eassumption.
Qed.

(** The header names the user. *)
Lemma header_username (profile : Profile) :
  Substring (html "<span class='username'>@" ++ login profile ++ "</span>")
    (profile_header profile).
Proof.
  unfold profile_header. cbv zeta.
  do 10 apply Substring_skip.
  apply (Substring_around (html "<span class='username'>@") "</span>");
    reflexivity.
Qed.

Lemma no_events_total : Contrib.totalEvents (Contrib.buildContributionData now []) = 0.
Proof. reflexivity. Qed.

(** The page of [gitglue.js] built without events. *)
Lemma contrib_page_without_events (profile : Profile) (repos : list Repo) :
  let page := getStyles ++ fst (Contrib.buildHTML now profile repos
                                  (Contrib.buildContributionData now [])) in
  Substring (html "<span class='username'>@" ++ login profile ++ "</span>") page /\
  Substring (html "<span class='activity-total'>0 events</span>") page /\
  Substring (html "<input type='text' class='search' placeholder='Search repositories...'>") page /\
  Substring (repos_section now (sort by_update repos)) page.
Proof.
  intros page. unfold page. repeat split.
  - apply Substring_skip. unfold Contrib.buildHTML. cbn [fst].
    apply Substring_app_l, header_username.
  - apply Substring_skip. unfold Contrib.buildHTML. cbn [fst].
    do 2 apply Substring_skip. apply Substring_app_l.
    unfold Contrib.buildContributionGraph. cbv zeta.
    rewrite no_events_total.
    apply Substring_three. vm_compute. reflexivity.
  - apply Substring_skip. unfold Contrib.buildHTML. cbn [fst].
    do 3 apply Substring_skip. apply Substring_literal.
    vm_compute. reflexivity.
  - apply Substring_skip. apply contrib_section.
Qed.

(** The page of the variant with the log built without events. *)
Lemma activity_page_without_events (profile : Profile) (repos : list Repo) :
  let page := getStyles ++ fst (Activity.buildHTML now profile repos []) in
  Substring (html "<span class='username'>@" ++ login profile ++ "</span>") page /\
  Substring (html "<div class='activity-empty'>No recent activity</div>") page /\
  Substring (html "<input type='text' class='search' placeholder='Search repositories...'>") page /\
  Substring (repos_section now (sort by_update repos)) page.
Proof.
  intros page. unfold page. repeat split.
  - apply Substring_skip. unfold Activity.buildHTML. cbn [fst].
    apply Substring_app_l, header_username.
  - apply Substring_skip. unfold Activity.buildHTML. cbn [fst].
    do 2 apply Substring_skip. apply Substring_literal.
    vm_compute. reflexivity.
  - apply Substring_skip. unfold Activity.buildHTML. cbn [fst].
    do 3 apply Substring_skip. apply Substring_literal.
    vm_compute. reflexivity.
  - apply Substring_skip. apply activity_section.
Qed.

(** C10: with the profile and the repositories fetched and parsed and the
    events response not [ok], the pass shows the full page built with no
    event: the header with the user, the activity section (in [gitglue.js]
    the chart with the total [0 events], in the variant with the log the
    text [No recent activity]), the search box and the cards of all the
    repositories; and the pass shows [Failed to load GitHub data] exactly
    when a fetch rejects, the profile or the repository response is not
    [ok], or a body that is read does not parse. *)
Theorem render_fails_exactly_when (user : string) (w : World) :
  (forall pr rr er profile repos,
     fetch_profile net (profile_url user) = Fulfilled pr ->
     fetch_repos net (repos_url user) = Fulfilled rr ->
     fetch_events net (events_url user) = Fulfilled er ->
     ok pr = true -> body pr = Some profile ->
     ok rr = true -> body rr = Some repos ->
     ok er = false ->
     let shown := innerHTML (Contrib.render net now user w) in
     let shown' := innerHTML (Activity.render net now user w) in
     let user_line := html "<span class='username'>@" ++ login profile ++ "</span>" in
     let search_box :=
       html "<input type='text' class='search' placeholder='Search repositories...'>" in
     shown =
       getStyles ++ fst (Contrib.buildHTML now profile repos
                           (Contrib.buildContributionData now [])) /\
     Contrib.totalEvents (Contrib.buildContributionData now []) = 0 /\
     Substring user_line shown /\
     Substring (html "<span class='activity-total'>0 events</span>") shown /\
     Substring search_box shown /\
     Substring (repos_section now (sort by_update repos)) shown /\
     shown' = getStyles ++ fst (Activity.buildHTML now profile repos []) /\
     Activity.buildActivityLog now [] = html "
        <div class='activity-header'>
          <span class='activity-title'>Recent Activity</span>
        </div>
        <div class='activity-empty'>No recent activity</div>
      " /\
     Substring user_line shown' /\
     Substring (html "<div class='activity-empty'>No recent activity</div>") shown' /\
     Substring search_box shown' /\
     Substring (repos_section now (sort by_update repos)) shown') /\
  (innerHTML (Contrib.render net now user w) =
     getStyles ++ html "<p class='error'>Failed to load GitHub data</p>"
   <-> Fails net user) /\
  (innerHTML (Activity.render net now user w) =
     getStyles ++ html "<p class='error'>Failed to load GitHub data</p>"
   <-> Fails net user).
Proof.
  split; [ | split ].
  - intros [ok1 b1] [ok2 b2] [ok3 b3] profile repos Hp Hr He.
    simpl. intros -> -> -> -> ->.
    assert (Hrec : fetched_records net user = Some (profile, repos, [])).
    { unfold fetched_records. rewrite Hp, Hr, He. reflexivity. }
    rewrite render_innerHTML, activity_render_innerHTML, Hrec.
    destruct (contrib_page_without_events profile repos) as (Hc1 & Hc2 & Hc3 & Hc4).
    destruct (activity_page_without_events profile repos) as (Ha1 & Ha2 & Ha3 & Ha4).
    repeat split; assumption.
  - rewrite render_innerHTML, <- fetched_records_fails.
    destruct (fetched_records net user) as [[[profile repos] events] |].
    + split; [ | discriminate ]. intros Heq. exfalso.
      eapply page_not_failed; [ | exact Heq ]. reflexivity.
    + split; reflexivity.
  - rewrite activity_render_innerHTML, <- fetched_records_fails.
    destruct (fetched_records net user) as [[[profile repos] events] |].
    + split; [ | discriminate ]. intros Heq. exfalso.
      eapply page_not_failed; [ | exact Heq ]. reflexivity.
    + split; reflexivity.
Qed.

End Failure.

(** The events endpoint answers 503 and the page is there all the same,
    with a chart of no event. *)
Lemma render_fails_exactly_when_witness :
  innerHTML (@Contrib.render Sample.host Sample.net_events_down Sample.now "octocat" constructed) =
    @getStyles Sample.host ++
    fst (@Contrib.buildHTML Sample.host Sample.now Sample.profile
           [Sample.older; Sample.newer]
           (@Contrib.buildContributionData Sample.host Sample.now [])) /\
  Substring (html "<span class='activity-total'>0 events</span>")
    (innerHTML (@Contrib.render Sample.host Sample.net_events_down Sample.now
                  "octocat" constructed)).
Proof.
  pose proof (proj1 (@render_fails_exactly_when Sample.host
                       Sample.net_events_down Sample.now "octocat" constructed)
                _ _ _ _ _ eq_refl eq_refl eq_refl eq_refl eq_refl eq_refl
                eq_refl eq_refl) as Hthm.
  cbv zeta in Hthm.
  split; [ exact (proj1 Hthm) | exact (proj1 (proj2 (proj2 (proj2 Hthm)))) ].
Defined.

(** ** The weeks of the chart *)

Section Weeks.

Context `{Host}.

Import Contrib.

Lemma totalEvents_from (weeks : list Week) (a : Z) :
  fold_left (fun sum w => sum + count w) weeks a = a + sum_counts weeks.
Proof.
  revert a. induction weeks as [| w weeks IH]; intros a; simpl; [ lia | ].
  rewrite IH. lia.
Qed.

Lemma totalEvents_sum (weeks : list Week) : totalEvents weeks = sum_counts weeks.
Proof. unfold totalEvents. now rewrite totalEvents_from. Qed.










(** One more event in front of the list, counted by the inner loop. *)
Lemma tally_count_event (weeks : list Week) (events : list Event) (e : Event) :
  tally events (count_event (created_at e) weeks) = tally (e :: events) weeks.
Proof.
  revert events. induction weeks as [| w weeks IH]; intros events;
    [ reflexivity | ].
  cbn [count_event]. destruct (in_week (created_at e) w) eqn:Hw.
  - cbn [tally filter].
    unfold in_week, weekEnd in *. cbn [start count label increment] in *.
    rewrite Hw. cbn [negb List.length].
    f_equal. f_equal. rewrite Nat2Z.inj_succ. lia.
  - cbn [tally filter]. rewrite Hw. cbn [negb]. f_equal. apply IH.
Qed.

Lemma tally_nil (weeks : list Week) : tally [] weeks = weeks.
Proof.
  induction weeks as [| [s c l] weeks IH]; [ reflexivity | ].
  cbn [tally filter List.length start count label]. rewrite IH.
  f_equal. f_equal. lia.
Qed.

Lemma tally_fold (events : list Event) (weeks : list Week) :
  fold_left (fun weeks event => count_event (created_at event) weeks)
    events weeks = tally events weeks.
Proof.
  revert weeks. induction events as [| e events IH]; intros weeks.
  - symmetry. apply tally_nil.
  - cbn [fold_left]. rewrite IH. apply tally_count_event.
Qed.


End Weeks.

(** New York, 16 November 2023, 17:13:20: the twelve starts are the Sundays
    from 27 August on at 17:13:20 local time, in daylight saving time up to
    29 October and in standard time from 5 November, and the window that
    starts on 29 October is 169 hours long. *)
Lemma new_york_starts :
  map Contrib.start
    (@Contrib.buildContributionData Sample.new_york Sample.now []) =
  [ 1693170800000; 1693775600000; 1694380400000; 1694985200000;
    1695590000000; 1696194800000; 1696799600000; 1697404400000;
    1698009200000; 1698614000000; 1699222400000; 1699827200000 ] /\
  @Contrib.weekEnd Sample.new_york
    (@Contrib.week_of Sample.new_york Sample.now 2) - 1698614000000
  = 169 * 3600000.
Proof. split; vm_compute; reflexivity. Qed.

(** ** The sentences of the activity log *)

Section Events.

Context `{Host}.

Import Activity.

Lemma Substring_intro (pre q post : string) : Substring q (pre ++ q ++ post).
Proof. now exists pre, post. Qed.

Lemma Substring_end (pre q : string) : Substring q (pre ++ q).
Proof. exists pre, "". now rewrite append_nil_r. Qed.

(** Every sentence names the repository. *)
Lemma sentence_links (t : string) (event : Event) :
  Substring (repoLink event) (sentence t event).
Proof.
  unfold sentence.
  repeat match goal with
         | |- context [if String.eqb t ?name then _ else _] =>
             destruct (String.eqb t name)
         | |- context [if js_truthy ?x then _ else _] =>
             destruct (js_truthy x)
         end;
    rewrite <- ?append_assoc;
    first [ apply Substring_end | apply Substring_intro
          | rewrite !append_assoc; apply Substring_intro
          | rewrite append_assoc; apply Substring_intro ].
Qed.

Lemma sentence_default (t : string) (event : Event) :
  ~ In t event_types -> sentence t event = "Activity in " ++ repoLink event.
Proof.
  intros Hnot. unfold sentence.
  repeat match goal with
         | |- context [if String.eqb t ?name then _ else _] =>
             destruct (String.eqb_spec t name) as [-> | _];
             [ exfalso; apply Hnot; simpl; tauto | ]
         end.
  reflexivity.
Qed.

(** [split] cuts at the first slash and goes on behind it. *)
Lemma split_first (s : string) :
  split "/" s =
  before_slash s ::
  match after_slash s with Some rest => split "/" rest | None => [] end.
Proof.
  induction s as [| c s IH]; [ reflexivity | ].
  cbn [split before_slash after_slash].
  destruct (Ascii.eqb c "/"); [ reflexivity | ].
  now rewrite IH.
Qed.

Lemma repoFullName_shown (event : Event) :
  repoFullName event = shown_full event.
Proof.
  unfold repoFullName, shown_full.
  destruct (repo event) as [| | r]; cbn [chain js_truthy]; try reflexivity.
  destruct (ref_name r) as [| | [| c s]]; reflexivity.
Qed.

Lemma repoName_shown (event : Event) :
  repoName event = shown_short (shown_full event).
Proof.
  unfold repoName. rewrite repoFullName_shown. unfold shown_short.
  rewrite split_first. cbn [nth_error].
  destruct (after_slash (shown_full event)) as [rest |]; [ | reflexivity ].
  rewrite split_first. cbn [nth_error].
  destruct (before_slash rest); reflexivity.
Qed.

Lemma repoUrl_shown (event : Event) :
  repoUrl event = "https://github.com/" ++ shown_full event.
Proof. unfold repoUrl. now rewrite repoFullName_shown. Qed.

Lemma repoLink_shown (event : Event) :
  repoLink event =
  anchor ("https://github.com/" ++ shown_full event)
    (shown_short (shown_full event)).
Proof.
  unfold repoLink, anchor. now rewrite repoUrl_shown, repoName_shown.
Qed.

Lemma commit_hash_link_anchor (url path text : string) :
  commit_hash_link url path text = hash_anchor (url ++ path) text.
Proof. unfold commit_hash_link, hash_anchor. now rewrite !append_assoc. Qed.

Lemma pull_link_anchor (url : string) (n : js Z) :
  pull_link url n = pull_anchor url n.
Proof.
  unfold pull_link, pull_anchor.
  destruct n as [| | k]; cbn [js_nonzero js_show_Z]; try reflexivity.
  unfold nonzero. destruct (k =? 0); cbn [negb]; [ reflexivity | ].
  apply commit_hash_link_anchor.
Qed.

Lemma capitalize_capital (x : js string) : capitalize x = capital x.
Proof. reflexivity. Qed.

Ltac case_of_switch Htype :=
  unfold formatEventDescription, sentence; rewrite Htype;
  cbn [String.eqb Ascii.eqb Bool.eqb];
  rewrite ?repoLink_shown, ?repoUrl_shown, ?pull_link_anchor.

(** C4: [formatEventDescription] is defined on every event and returns the
    sentence of its type, said here from the fields of the event.  The
    repository is [repo.name] when that is a non-empty string and [unknown]
    otherwise, so also when the event carries no [repo]; the link goes to
    [https://github.com/] followed by that name and shows what stands between
    its first and second slash, or the whole name.  Each of the twelve types
    the [switch] names has its own sentence, with its commit, pull request or
    tag link where the payload has one; any other type, and a type that is
    no string, gives [Activity in] and the link. *)
Theorem formatEventDescription_sentences (event : Event) :
  let full := shown_full event in
  let url := "https://github.com/" ++ full in
  let link := anchor url (shown_short full) in
  let p := payload event in
  let says := formatEventDescription event in
  (type event = val "PushEvent" ->
     says = "Pushed to " ++ link
            ++ match chain p head with
               | val (String c h) =>
                   hash_anchor (url ++ "/commit/" ++ String c h)
                     (substring 0 7 (String c h))
               | _ => ""
               end) /\
  (type event = val "CreateEvent" ->
     says = "Created "
            ++ match chain p ref_type with
               | val (String c s) => String c s
               | _ => "repository"
               end
            ++ match chain p ref with
               | val (String c s) => " <strong>" ++ String c s ++ "</strong> in "
               | _ => " "
               end
            ++ link) /\
  (type event = val "DeleteEvent" ->
     says = "Deleted " ++ printed (chain p ref_type) ++ " <strong>"
              ++ printed (chain p ref) ++ "</strong> from " ++ link) /\
  (type event = val "WatchEvent" -> says = "Starred " ++ link) /\
  (type event = val "ForkEvent" -> says = "Forked " ++ link) /\
  (type event = val "IssuesEvent" ->
     says = capital (chain p action) ++ " issue in " ++ link) /\
  (type event = val "IssueCommentEvent" ->
     says = "Commented on issue in " ++ link) /\
  (type event = val "PullRequestEvent" ->
     says = capital (chain p action) ++ " PR in " ++ link
            ++ pull_anchor url (chain p number)) /\
  (type event = val "PullRequestReviewEvent" ->
     says = "Reviewed PR in " ++ link
            ++ pull_anchor url (chain (chain p pull_request) pr_number)) /\
  (type event = val "PullRequestReviewCommentEvent" ->
     says = "Commented on PR in " ++ link
            ++ pull_anchor url (chain (chain p pull_request) pr_number)) /\
  (type event = val "ReleaseEvent" ->
     says = capital (chain p action) ++ " release in " ++ link
            ++ match chain (chain p release) tag_name with
               | val (String c s) =>
                   hash_anchor (url ++ "/releases/tag/" ++ String c s)
                     (String c s)
               | _ => ""
               end) /\
  (type event = val "PublicEvent" -> says = "Made " ++ link ++ " public") /\
  ((forall t, type event = val t ->
      ~ In t [ "PushEvent"; "CreateEvent"; "DeleteEvent"; "WatchEvent";
               "ForkEvent"; "IssuesEvent"; "IssueCommentEvent";
               "PullRequestEvent"; "PullRequestReviewEvent";
               "PullRequestReviewCommentEvent"; "ReleaseEvent";
               "PublicEvent" ]) ->
     says = "Activity in " ++ link) /\
  (repo event = undefined ->
     link = html "<a href='https://github.com/unknown' target='_blank' rel='noopener'>unknown</a>").
Proof.
  intros full url link p says. unfold says, link, url, full.
  repeat match goal with |- _ /\ _ => split end.
  - intros Htype. case_of_switch Htype. fold p.
    destruct (chain p head) as [| | [| c h]]; cbn [chain js_truthy js_show];
      try reflexivity.
    cbn [substring truthy]. now rewrite commit_hash_link_anchor.
  - intros Htype. case_of_switch Htype. fold p.
    destruct (chain p ref_type) as [| | [| c s]],
      (chain p ref) as [| | [| c' s']];
      cbn [js_truthy js_show truthy]; rewrite ?append_assoc; reflexivity.
  - intros Htype. case_of_switch Htype. reflexivity.
  - intros Htype. case_of_switch Htype. reflexivity.
  - intros Htype. case_of_switch Htype. reflexivity.
  - intros Htype. case_of_switch Htype. reflexivity.
  - intros Htype. case_of_switch Htype. reflexivity.
  - intros Htype. case_of_switch Htype. reflexivity.
  - intros Htype. case_of_switch Htype. reflexivity.
  - intros Htype. case_of_switch Htype. reflexivity.
  - intros Htype. case_of_switch Htype. fold p.
    destruct (chain (chain p release) tag_name) as [| | [| c s]];
      cbn [js_truthy js_show truthy]; try reflexivity.
    now rewrite commit_hash_link_anchor.
  - intros Htype. case_of_switch Htype. reflexivity.
  - intros Hother. unfold formatEventDescription.
    destruct (type event) as [| | t]; rewrite <- ?repoLink_shown;
      try reflexivity.
    apply sentence_default. now apply Hother.
  - intros Hrepo. unfold shown_full. rewrite Hrepo. reflexivity.
Qed.

End Events.

(** The push of commit 7fd1a60 to [octocat/Hello-World]. *)
Lemma formatEventDescription_sentences_witness :
  @Activity.formatEventDescription Sample.host Sample.pushed =
  "Pushed to "
  ++ anchor "https://github.com/octocat/Hello-World" "Hello-World"
  ++ hash_anchor
       "https://github.com/octocat/Hello-World/commit/7fd1a60b01f91b314f59955a4e4d4e80d8edf11d"
       "7fd1a60".
Proof.
  exact (proj1 (@formatEventDescription_sentences Sample.host Sample.pushed)
           eq_refl).
Defined.

(** ** The search box *)

Section Search.

Context `{Host}.

(** A card with a [data-name] stays displayed under the empty query. *)
Lemma on_input_empty_query (card : Dom.Element) (name : string) :
  toLowerCase "" = "" ->
  Dom.dataset "name" card = Some name ->
  option_map displayed (on_input_card "" card) = Some true.
Proof.
  intros Hlower Hname. unfold on_input_card, card_match.
  rewrite Hlower, Hname, includes_empty. reflexivity.
Qed.

(** [run] over a text in two stretches. *)
Lemma run_feed (a b : string) (st : Dom.state) (t : Dom.tag) :
  Dom.run st t (a ++ b) =
  Dom.run (fst (Dom.feed st t a)) (snd (Dom.feed st t a)) b.
Proof.
  revert st t. induction a as [| c a IH]; intros st t; [ reflexivity | ].
  cbn [append Dom.feed].
  destruct st; cbn [Dom.run];
    try (destruct (Dom.step _ c t) as [st' t'] eqn:Hstep; apply IH).
  - cbn [Dom.step]. rewrite <- IH. destruct (a ++ b); reflexivity.
  - cbn [Dom.step]. rewrite <- IH. destruct (a ++ b); reflexivity.
Qed.

(** A plain text inside double quotes goes into the value as it is. *)
Lemma feed_plain (v : string) (tn : string) attrs (n val : string) :
  Dom.plain v = true ->
  Dom.feed Dom.AttributeValueDoubleQuoted
    {| Dom.tag_name := tn; Dom.attributes := attrs; Dom.current := Some (n, val) |} v =
  (Dom.AttributeValueDoubleQuoted,
   {| Dom.tag_name := tn; Dom.attributes := attrs;
      Dom.current := Some (n, val ++ v) |}).
Proof.
  revert val. induction v as [| c v IH]; intros val Hplain.
  - simpl. now rewrite append_nil_r.
  - cbn [Dom.plain] in Hplain.
    apply andb_true_iff in Hplain. destruct Hplain as [Hc Hplain].
    apply andb_true_iff in Hc. destruct Hc as [Hquote Houtside].
    apply negb_true_iff in Hquote, Houtside.
    cbn [Dom.feed Dom.step]. rewrite Hquote, Houtside.
    unfold Dom.value_char. cbn [Dom.current Dom.tag_name Dom.attributes].
    rewrite IH by exact Hplain. unfold Dom.snoc.
    now rewrite append_assoc.
Qed.

Ltac feed_literal :=
  match goal with
  | |- context [Dom.feed ?st ?t ?a] =>
      let r := eval vm_compute in (Dom.feed st t a) in
      change (Dom.feed st t a) with r; cbn [fst snd]
  end.

(** The element of a card, parsed on its own, whose lowercased name and
    description are plain carries them in [data-name] and [data-desc]. *)
Lemma card_element_plain (now : Z) (repo : Repo) :
  Dom.plain (toLowerCase (repo_name repo)) = true ->
  Dom.plain (toLowerCase (or_empty (description repo))) = true ->
  card_element now repo =
  Some {| Dom.attrs :=
            [ ("data-desc", toLowerCase (or_empty (description repo)));
              ("data-name", toLowerCase (repo_name repo));
              ("class", "repo") ];
          Dom.style_display := "" |}.
Proof.
  intros Hname Hdesc.
  unfold card_element, Dom.element_of, Dom.first_start_tag, buildRepoCard.
  cbv zeta.
  rewrite run_feed. feed_literal.
  rewrite run_feed, (feed_plain _ _ _ _ _ Hname). cbn [fst snd append].
  rewrite run_feed. feed_literal.
  rewrite run_feed, (feed_plain _ _ _ _ _ Hdesc). cbn [fst snd append].
  rewrite run_feed. feed_literal.
  reflexivity.
Qed.

(** On such a card, parsed on its own, the filter is the one of the
    lowercased name and description. *)
Lemma on_input_plain (now : Z) (repo : Repo) (value : string) :
  Dom.plain (toLowerCase (repo_name repo)) = true ->
  Dom.plain (toLowerCase (or_empty (description repo))) = true ->
  option_map displayed (bind (card_element now repo) (on_input_card value)) =
  Some (includes (toLowerCase (repo_name repo)) (toLowerCase value)
        || includes (toLowerCase (or_empty (description repo)))
             (toLowerCase value))%bool.
Proof.
  intros Hname Hdesc. rewrite (card_element_plain now repo Hname Hdesc).
  unfold bind, on_input_card, card_match, Dom.dataset. cbn [Dom.attrs].
  cbn [Dom.getAttribute append String.eqb Ascii.eqb Bool.eqb].
  destruct (includes (toLowerCase (repo_name repo)) (toLowerCase value));
    [ reflexivity | ].
  destruct (includes (toLowerCase (or_empty (description repo)))
              (toLowerCase value)); reflexivity.
Qed.

End Search.

(** C5 fails on a description that holds a double quote.  The card of
    [Sample.quoted] is written with [data-desc="say "hi""]; the parser ends
    the value at the second quote, so the element carries [say ] and the
    query [hi] hides the card, though the lowercased description holds
    [hi]. *)
Theorem search_hides_quoted_description :
  let card := @card_element Sample.host Sample.now Sample.quoted in
  includes (@toLowerCase Sample.host (or_empty (description Sample.quoted)))
           (@toLowerCase Sample.host "hi") = true /\
  option_map (Dom.dataset "name") card = Some (Some "demo") /\
  option_map (Dom.dataset "desc") card = Some (Some "say ") /\
  option_map displayed (bind card (@on_input_card Sample.host "hi")) = Some false.
Proof. vm_compute. repeat split. Qed.

(** ** Further properties *)

Import Notions.

(** *** The weeks of the chart, counted exactly *)

Section WeeksCounted.

Context `{Host}.

Import Contrib.

Lemma in_week_increment (d : Z) (w : Week) :
  in_week d (increment w) = in_week d w.
Proof. reflexivity. Qed.

(** Where the windows do not overlap, the first week that holds a date is
    the only one: the inner loop with its [break] counts the event into every
    week that holds it. *)
Lemma count_event_spaced (d : Z) (weeks : list Week) :
  spaced weeks ->
  count_event d weeks =
  map (fun w => if in_week d w then increment w else w) weeks.
Proof.
  induction 1 as [| w weeks Hsorted IH Hall]; simpl; [ reflexivity | ].
  destruct (in_week d w) eqn:Hw.
  - f_equal. symmetry. rewrite <- (map_id weeks) at 2.
    apply map_ext_in. intros w' Hin.
    rewrite Forall_forall in Hall. specialize (Hall w' Hin).
    unfold in_week in *. apply andb_true_iff in Hw. destruct Hw as [_ Hw].
    apply Z.ltb_lt in Hw.
    destruct (Z.leb_spec (start w') d); [ lia | reflexivity ].
  - now rewrite IH.
Qed.

Lemma spaced_map (f : Week -> Week) (weeks : list Week) :
  (forall w, start (f w) = start w) -> spaced weeks -> spaced (map f weeks).
Proof.
  intros Hstart. unfold spaced.
  induction 1 as [| w weeks Hsorted IH Hall]; simpl; constructor.
  - exact IH.
  - apply Forall_map. eapply Forall_impl; [ | exact Hall ].
    intros w'. unfold weekEnd. now rewrite !Hstart.
Qed.

Lemma counted_cons (e : Event) (events : list Event) (w : Week) :
  counted events (if in_week (created_at e) w then increment w else w) =
  counted (e :: events) w.
Proof.
  unfold counted, events_in. cbn [filter].
  destruct (in_week (created_at e) w) eqn:Hw.
  - cbn [start count label increment List.length].
    replace (filter (fun e0 => in_week (created_at e0) (increment w)) events)
      with (filter (fun e0 => in_week (created_at e0) w) events)
      by (apply filter_ext; reflexivity).
    f_equal. lia.
  - reflexivity.
Qed.

Lemma counted_fold (events : list Event) (weeks : list Week) :
  spaced weeks ->
  fold_left (fun weeks event => count_event (created_at event) weeks)
    events weeks = map (counted events) weeks.
Proof.
  revert weeks. induction events as [| e events IH]; intros weeks Hspaced.
  - simpl. rewrite <- (map_id weeks) at 1. apply map_ext.
    intros [s c l]. unfold counted, events_in. simpl. f_equal. lia.
  - cbn [fold_left]. rewrite count_event_spaced by exact Hspaced.
    rewrite IH by (apply spaced_map; [ intros w; now destruct (in_week _ w) | exact Hspaced ]).
    rewrite map_map. apply map_ext. intros w. apply counted_cons.
Qed.

Lemma contiguous_spaced (s : Z) (weeks : list Week) :
  contiguous s weeks ->
  spaced weeks /\ Forall (fun w => s <= start w) weeks.
Proof.
  revert s. induction weeks as [| w weeks IH]; intros s; cbn [contiguous].
  - intros _. split; constructor.
  - intros (Hs & Hle & Hrest). destruct (IH _ Hrest) as [Hspaced Hall].
    split.
    + constructor; [ exact Hspaced | exact Hall ].
    + constructor; [ lia | ].
      eapply Forall_impl; [ | exact Hall ]. intros w'. cbn beta. lia.
Qed.

(** Where the windows of the twelve weeks do not overlap, the weeks that
    come back are the weeks of the first loop with the events counted into
    each. *)
Lemma counted_weeks (today : Z) (events : list Event) :
  spaced (initial_weeks today) ->
  buildContributionData today events =
  map (fun i => counted events (week_of today i)) (countdown 12).
Proof.
  intros Hspaced. unfold buildContributionData.
  rewrite counted_fold by exact Hspaced.
  now rewrite map_map.
Qed.


(** The counts add up to the hits of the events. *)
Lemma hits_events_cons (w : Week) (weeks : list Week) (events : list Event) :
  fold_right (fun e n => hits (created_at e) (w :: weeks) + n) 0 events =
  Z.of_nat (List.length (events_in w events))
  + fold_right (fun e n => hits (created_at e) weeks + n) 0 events.
Proof.
  induction events as [| e events IH]; [ reflexivity | ].
  cbn [fold_right]. rewrite IH.
  unfold hits at 1. cbn [fold_right]. fold (hits (created_at e) weeks).
  unfold events_in. cbn [filter].
  destruct (in_week (created_at e) w); cbn [List.length]; lia.
Qed.

Lemma sum_counts_counted (events : list Event) (weeks : list Week) :
  sum_counts (map (counted events) weeks) =
  sum_counts weeks
  + fold_right (fun e n => hits (created_at e) weeks + n) 0 events.
Proof.
  induction weeks as [| w weeks IH].
  - unfold sum_counts. simpl.
    induction events as [| e events IHe]; [ reflexivity | ].
    cbn [fold_right]. rewrite <- IHe. reflexivity.
  - rewrite hits_events_cons.
    unfold sum_counts in *. cbn [map fold_right]. rewrite IH.
    cbn [counted count]. lia.
Qed.

(** One date lies in one window of a contiguous run of weeks, or in none. *)
Lemma hits_contiguous (d s : Z) (weeks : list Week) :
  contiguous s weeks ->
  s <= span_end s weeks /\
  hits d weeks = if (s <=? d) && (d <? span_end s weeks) then 1 else 0.
Proof.
  revert s. induction weeks as [| w weeks IH]; intros s.
  - intros _. unfold hits. cbn [fold_right span_end]. split; [ lia | ].
    destruct (Z.leb_spec s d), (Z.ltb_spec d s); simpl; try reflexivity; lia.
  - intros (Hs & Hle & Hrest). destruct (IH _ Hrest) as [Hend Hhits].
    unfold hits. cbn [fold_right span_end]. fold (hits d weeks).
    rewrite Hhits. split; [ lia | ].
    unfold in_week. rewrite Hs.
    destruct (Z.leb_spec s d), (Z.ltb_spec d (weekEnd w)),
      (Z.leb_spec (weekEnd w) d),
      (Z.ltb_spec d (span_end (weekEnd w) weeks));
      simpl; try reflexivity; lia.
Qed.

Lemma hits_counted (d : Z) (events : list Event) (weeks : list Week) :
  hits d (map (counted events) weeks) = hits d weeks.
Proof.
  unfold hits. induction weeks as [| w weeks IH]; [ reflexivity | ].
  cbn [map fold_right]. now rewrite IH.
Qed.

Lemma total_in_chart (today : Z) (events : list Event) :
  contiguous (first_start today) (initial_weeks today) ->
  totalEvents (buildContributionData today events) =
  Z.of_nat (List.length (filter (in_chart today) events)).
Proof.
  intros Hcontiguous.
  pose proof (proj1 (contiguous_spaced _ _ Hcontiguous)) as Hspaced.
  rewrite totalEvents_sum, (counted_weeks today events Hspaced).
  rewrite <- (map_map (week_of today) (counted events)).
  rewrite sum_counts_counted.
  assert (Hzero : sum_counts (map (week_of today) (countdown 12)) = 0)
    by reflexivity.
  rewrite Hzero. clear Hzero.
  change (map (week_of today) (countdown 12)) with (initial_weeks today).
  induction events as [| e events IH]; [ reflexivity | ].
  cbn [fold_right filter].
  rewrite (proj2 (hits_contiguous (created_at e) _ _ Hcontiguous)).
  unfold in_chart at 1.
  change (span_end (first_start today) (initial_weeks today))
    with (chart_end today).
  destruct ((first_start today <=? created_at e)
            && (created_at e <? chart_end today));
    cbn [List.length]; lia.
Qed.

(** X2: where the windows of the twelve weeks follow one another without a
    gap and without overlap, the total the chart shows is the number of
    events dated from the start of the first week up to the end of the
    window of the current week, the end excluded; an event outside that
    span lies in the window of no week and is counted nowhere. *)
Theorem buildContributionData_total (today : Z) (events : list Event) :
  contiguous (first_start today) (initial_weeks today) ->
  totalEvents (buildContributionData today events) =
    Z.of_nat (List.length (filter (in_chart today) events)) /\
  (forall e, in_chart today e = false ->
     hits (created_at e) (buildContributionData today events) = 0).
Proof.
  intros Hcontiguous. split; [ now apply total_in_chart | ].
  intros e Hout.
  pose proof (proj1 (contiguous_spaced _ _ Hcontiguous)) as Hspaced.
  rewrite (counted_weeks today events Hspaced).
  rewrite <- (map_map (week_of today) (counted events)), hits_counted.
  change (map (week_of today) (countdown 12)) with (initial_weeks today).
  rewrite (proj2 (hits_contiguous (created_at e) _ _ Hcontiguous)).
  change (span_end (first_start today) (initial_weeks today))
    with (chart_end today).
  unfold in_chart in Hout. now rewrite Hout.
Qed.

Lemma filter_perm {A : Type} (f : A -> bool) (l l' : list A) :
  Permutation l l' -> Permutation (filter f l) (filter f l').
Proof.
  induction 1 as [| x l l' Hperm IH | x y l | l l' l'' H1 IH1 H2 IH2];
    cbn [filter].
  - reflexivity.
  - destruct (f x); [ now constructor | assumption ].
  - destruct (f x), (f y); try reflexivity; now constructor.
  - etransitivity; eassumption.
Qed.

Lemma tally_perm (weeks : list Week) (events events' : list Event) :
  Permutation events events' -> tally events weeks = tally events' weeks.
Proof.
  revert events events'. induction weeks as [| w weeks IH];
    intros events events' Hperm; [ reflexivity | ].
  cbn [tally]. f_equal.
  - f_equal. f_equal. f_equal. apply Permutation_length. now apply filter_perm.
  - apply IH. now apply filter_perm.
Qed.

(** Every week of a tally has the count it came with and at most all the
    events on top. *)
Lemma tally_count (weeks : list Week) (events : list Event) (w : Week) :
  In w (tally events weeks) ->
  exists w0, In w0 weeks /\
             count w <= count w0 + Z.of_nat (List.length events).
Proof.
  revert events. induction weeks as [| w0 weeks IH]; intros events;
    cbn [tally]; [ contradiction | ].
  intros [<- | Hin].
  - exists w0. split; [ now left | ]. cbn [count].
    pose proof (filter_length_le (fun e => in_week (created_at e) w0) events).
    lia.
  - destruct (IH _ Hin) as (w1 & Hin1 & Hle).
    exists w1. split; [ now right | ].
    pose proof (filter_length_le
                  (fun e => negb (in_week (created_at e) w0)) events).
    lia.
Qed.

(** X3: the chart does not depend on the order in which the API lists the
    events. *)
Theorem buildContributionData_order (today : Z) (events events' : list Event) :
  Permutation events events' ->
  buildContributionData today events = buildContributionData today events'.
Proof.
  intros Hperm. unfold buildContributionData.
  rewrite !tally_fold. now apply tally_perm.
Qed.

Lemma maxCount_bounds (weeks : list Week) :
  1 <= maxCount weeks /\
  Forall (fun w => count w <= maxCount weeks) weeks /\
  (maxCount weeks = 1 \/ exists w, In w weeks /\ maxCount weeks = count w).
Proof.
  unfold maxCount. induction weeks as [| w weeks (Hone & Hall & Hmax)]; simpl.
  - split; [ lia | ]. split; [ constructor | now left ].
  - split; [ lia | ]. split.
    + constructor; [ lia | ].
      eapply Forall_impl; [ | exact Hall ]. intros w'. simpl. lia.
    + destruct (Z.max_spec (count w) (fold_right Z.max 1 (map count weeks)))
        as [[_ ->] | [_ ->]].
      * destruct Hmax as [-> | (w' & Hin & ->)]; [ now left | ].
        right. exists w'. split; [ now right | reflexivity ].
      * right. exists w. split; [ now left | reflexivity ].
Qed.

(** X4: the scale of the chart, [maxCount], is at least 1, so the division
    of a count by it never divides by zero; it is at least every count; it
    is 1 or the count of one of the weeks; and for the weeks of
    [buildContributionData] it is at most the number of events, or 1. *)
Theorem maxCount_scale (today : Z) (events : list Event) (weeks : list Week) :
  (1 <= maxCount weeks /\
   Forall (fun w => count w <= maxCount weeks) weeks /\
   (maxCount weeks = 1 \/ exists w, In w weeks /\ maxCount weeks = count w)) /\
  maxCount (buildContributionData today events)
    <= Z.max 1 (Z.of_nat (List.length events)).
Proof.
  split; [ apply maxCount_bounds | ].
  destruct (maxCount_bounds (buildContributionData today events))
    as (_ & _ & [-> | (w & Hin & ->)]); [ lia | ].
  unfold buildContributionData in Hin. rewrite tally_fold in Hin.
  destruct (tally_count _ _ _ Hin) as (w0 & Hin0 & Hle).
  apply in_map_iff in Hin0. destruct Hin0 as (i & <- & _).
  cbn [count week_of] in Hle. lia.
Qed.

End WeeksCounted.

(** New York at the sample time: the twelve weeks span the end of daylight
    saving time, and their windows still follow one another. *)
Lemma new_york_contiguous :
  @contiguous Sample.new_york (@first_start Sample.new_york Sample.now)
    (@initial_weeks Sample.new_york Sample.now).
Proof.
  unfold initial_weeks. cbn [contiguous map Contrib.countdown].
  repeat split; try reflexivity; apply Z.leb_le; vm_compute; reflexivity.
Defined.


Lemma buildContributionData_total_witness :
  Contrib.totalEvents
    (@Contrib.buildContributionData Sample.new_york Sample.now
       [Sample.push; Sample.stale]) = 1.
Proof.
  apply (proj1 (@buildContributionData_total Sample.new_york Sample.now
                  [Sample.push; Sample.stale] new_york_contiguous)).
Defined.

(** The sample push and an event of two years before, in either order. *)
Lemma buildContributionData_order_witness :
  @Contrib.buildContributionData Sample.host Sample.now
    [Sample.push; Sample.stale] =
  @Contrib.buildContributionData Sample.host Sample.now
    [Sample.stale; Sample.push].
Proof.
  apply (@buildContributionData_order Sample.host Sample.now
           [Sample.push; Sample.stale] [Sample.stale; Sample.push]).
  apply perm_swap.
Defined.

(** *** [timeAgo], range by range *)

Section TimeAgoRanges.

Ltac next_interval s :=
  rewrite timeAgo_loop_cons by lia;
  match goal with
  | |- context [?n <=? s] => destruct (Z.leb_spec n s); [ try lia | try lia ]
  end.

Lemma quotient_range (s secs lo hi : Z) :
  0 < secs -> lo * secs <= s -> s < (hi + 1) * secs -> lo <= s / secs <= hi.
Proof.
  intros Hpos Hlo Hhi. split.
  - apply Z.div_le_lower_bound; lia.
  - apply Z.lt_succ_r. apply Z.div_lt_upper_bound; lia.
Qed.

(** X5: what [timeAgo] says, by the age in whole seconds: minutes from 1 to
    59, hours from 1 to 23, days from 1 to 29, months from 1 to 12 (a date
    360 to 364 days old is "12 months ago"), then years; the count is never
    0. *)
Theorem timeAgo_ranges (now date : Z) :
  let s := (now - date) / 1000 in
  let says (n : Z) (label : string) :=
    show_Z n ++ " " ++ label ++ (if 1 <? n then "s" else "") ++ " ago" in
  (60 <= s < 3600 ->
     timeAgo now date = says (s / 60) "minute" /\ 1 <= s / 60 <= 59) /\
  (3600 <= s < 86400 ->
     timeAgo now date = says (s / 3600) "hour" /\ 1 <= s / 3600 <= 23) /\
  (86400 <= s < 2592000 ->
     timeAgo now date = says (s / 86400) "day" /\ 1 <= s / 86400 <= 29) /\
  (2592000 <= s < 31536000 ->
     timeAgo now date = says (s / 2592000) "month" /\ 1 <= s / 2592000 <= 12) /\
  (31536000 <= s ->
     timeAgo now date = says (s / 31536000) "year" /\ 1 <= s / 31536000).
Proof.
  intros s says. unfold timeAgo. fold s. unfold intervals, says.
  split; [ | split; [ | split; [ | split ] ] ]; intros Hrange;
    (split; [ | first [ apply quotient_range; lia
                      | apply Z.div_le_lower_bound; lia ] ]).
  - do 5 next_interval s. reflexivity.
  - do 4 next_interval s. reflexivity.
  - do 3 next_interval s. reflexivity.
  - do 2 next_interval s. reflexivity.
  - next_interval s. reflexivity.
Qed.

End TimeAgoRanges.

(** A date 362 days old. *)
Lemma timeAgo_ranges_witness :
  timeAgo 1700000000000 (1700000000000 - 362 * 86400000) = "12 months ago".
Proof.
  apply (proj1 (proj1 (proj2 (proj2 (proj2
           (timeAgo_ranges 1700000000000 (1700000000000 - 362 * 86400000)))))
           ltac:(cbv; split; [ discriminate | reflexivity ]))).
Defined.

(** *** The search box, over all the cards *)

Section SearchAll.

Context `{Host}.

(** On cards that carry both attributes the listener never throws: it sets
    the display of every card. *)
Lemma on_input_map (value : string) (cards : list Dom.Element) :
  Forall has_datasets cards ->
  on_input value cards =
  map (fun c => set_display (if shows value c then "" else "none") c) cards.
Proof.
  induction 1 as [| c cards [Hname Hdesc] Hall IH]; [ reflexivity | ].
  cbn [on_input map]. unfold shows, on_input_card, card_match.
  destruct (Dom.dataset "name" c) as [name |]; [ | contradiction ].
  destruct (Dom.dataset "desc" c) as [desc |]; [ | contradiction ].
  destruct (includes name (toLowerCase value)); now rewrite IH.
Qed.

Lemma has_datasets_set_display (d : string) (c : Dom.Element) :
  has_datasets c -> has_datasets (set_display d c).
Proof. intros Hc. exact Hc. Qed.

(** X7: on cards that carry [data-name] and [data-desc], what is displayed
    after an input event depends on the current query only: an earlier query
    leaves no trace, and the same query twice changes nothing more. *)
Theorem search_last_query_wins (first second : string)
  (cards : list Dom.Element) :
  Forall has_datasets cards ->
  on_input second (on_input first cards) = on_input second cards.
Proof.
  intros Hall.
  rewrite (on_input_map first cards Hall).
  rewrite on_input_map
    by (apply Forall_map; eapply Forall_impl; [ | exact Hall ];
        intros c; apply has_datasets_set_display).
  rewrite (on_input_map second cards Hall), map_map.
  apply map_ext. intros c. reflexivity.
Qed.

(** X8: with the box cleared, every card that carries both attributes is
    displayed again, whatever an earlier query hid ([toLowerCase] maps the
    empty string to itself). *)
Theorem search_cleared_shows_all (cards : list Dom.Element) :
  toLowerCase "" = "" ->
  Forall has_datasets cards ->
  Forall (fun c => displayed c = true) (on_input "" cards) /\
  List.length (on_input "" cards) = List.length cards.
Proof.
  intros Hlower Hall. rewrite (on_input_map "" cards Hall), length_map.
  split; [ | reflexivity ].
  apply Forall_map. eapply Forall_impl; [ | exact Hall ].
  intros c [Hname _]. unfold shows, card_match. rewrite Hlower.
  destruct (Dom.dataset "name" c) as [name |]; [ | contradiction ].
  now rewrite includes_empty.
Qed.

End SearchAll.

(** The cards of the sample repositories, after the query KNIFE, with the
    query HELLO and with the box cleared. *)
Lemma search_last_query_wins_witness :
  exists c1 c2,
    @card_element Sample.host Sample.now Sample.older = Some c1 /\
    @card_element Sample.host Sample.now Sample.newer = Some c2 /\
    @on_input Sample.host "HELLO" (@on_input Sample.host "KNIFE" [c1; c2]) =
    @on_input Sample.host "HELLO" [c1; c2].
Proof.
  eexists _, _. split; [ vm_compute; reflexivity | ].
  split; [ vm_compute; reflexivity | ].
  apply (@search_last_query_wins Sample.host).
  repeat constructor; discriminate.
Defined.

Lemma search_cleared_shows_all_witness :
  exists c1 c2,
    @card_element Sample.host Sample.now Sample.older = Some c1 /\
    @card_element Sample.host Sample.now Sample.newer = Some c2 /\
    Forall (fun c => displayed c = true)
      (@on_input Sample.host "" (@on_input Sample.host "KNIFE" [c1; c2])).
Proof.
  eexists _, _. split; [ vm_compute; reflexivity | ].
  split; [ vm_compute; reflexivity | ].
  apply (@search_cleared_shows_all Sample.host); [ reflexivity | ].
  repeat constructor; discriminate.
Defined.

(** *** The passes of the other variants *)

Section RenderMore.

Context `{Host}.

Variables (net : Network) (now : Z).

Lemma basic_fetched_records_fails (user : string) :
  Basic.fetched_records net user = None <-> BasicFails net user.
Proof.
  unfold BasicFails, not_ok, json_throws, Basic.fetched_records,
    await, json, bind, ret, throw.
  destruct (fetch_profile net (profile_url user)) as [| [ok1 b1]];
    [ split; auto | ].
  destruct (fetch_repos net (repos_url user)) as [| [ok2 b2]];
    [ split; auto | ].
  destruct ok1; simpl;
    [ | split; [ intros _ | reflexivity ]; do 2 right; left; eexists; split; reflexivity ].
  destruct ok2; simpl;
    [ | split; [ intros _ | reflexivity ]; do 3 right; left; eexists; split; reflexivity ].
  destruct b1 as [profile |]; simpl;
    [ | split; [ intros _ | reflexivity ]; do 4 right; left; eexists; repeat split ].
  destruct b2 as [repos |]; simpl;
    [ | split; [ intros _ | reflexivity ]; do 5 right; eexists; repeat split ].
  split; [ discriminate | ].
  intros [Hf | [Hf | [Hf | [Hf | [Hf | Hf]]]]]; try discriminate;
    destruct Hf as (r & Heq & Hr); injection Heq as <-; simpl in Hr;
    try discriminate; destruct Hr; discriminate.
Qed.

Lemma basic_render_innerHTML (user : string) (w : World) :
  innerHTML (Basic.render net now user w) =
  match Basic.fetched_records net user with
  | Some (profile, repos) => getStyles ++ Basic.buildHTML now profile repos
  | None => getStyles ++ failed_html
  end.
Proof.
  unfold Basic.render.
  destruct (Basic.fetched_records net user) as [[profile repos] |]; reflexivity.
Qed.

(** X10: a pass of the basic variant sends two requests, for the profile and
    for the repositories, and none for the events; it shows the failure text
    exactly when one of the two fetches rejects, is not [ok] or does not
    parse; so it shows its page also where the events endpoint is down. *)
Theorem basic_render_two_requests (user : string) (w : World) :
  fetched (Basic.render net now user w) =
    (fetched w ++ [profile_url user; repos_url user])%list /\
  ~ In (events_url user) [profile_url user; repos_url user] /\
  (innerHTML (Basic.render net now user w) = getStyles ++ failed_html
   <-> BasicFails net user) /\
  (forall profile repos,
     Basic.fetched_records net user = Some (profile, repos) ->
     innerHTML (Basic.render net now user w) =
       getStyles ++ Basic.buildHTML now profile repos).
Proof.
  split; [ | split; [ | split ] ].
  - unfold Basic.render.
    destruct (Basic.fetched_records net user) as [[profile repos] |];
      simpl; now rewrite <- app_assoc.
  - unfold events_url, profile_url, repos_url.
    intros [Heq | [Heq | []]].
    + rewrite <- (append_nil_r user) in Heq at 1.
      apply append_inv_head, append_inv_head in Heq. discriminate.
    + apply append_inv_head, append_inv_head in Heq. discriminate.
  - rewrite basic_render_innerHTML, <- basic_fetched_records_fails.
    destruct (Basic.fetched_records net user) as [[profile repos] |].
    + split; [ | discriminate ]. intros Heq. exfalso.
      eapply page_not_failed; [ | exact Heq ]. reflexivity.
    + split; reflexivity.
  - intros profile repos Hrec. now rewrite basic_render_innerHTML, Hrec.
Qed.

(** X11: a pass of the variant with the activity log sends the same three
    requests as [gitglue.js], once each and in that order; and every request
    of every variant goes to [https://api.github.com/users/], followed by
    the user name as it stands in the attribute. *)
Theorem activity_render_requests (user : string) (w : World) :
  fetched (Activity.render net now user w) =
    (fetched w ++ [profile_url user; repos_url user; events_url user])%list /\
  Forall (fun url => exists rest, url = api ++ user ++ rest)
    [profile_url user; repos_url user; events_url user].
Proof.
  split.
  - unfold Activity.render.
    assert (Hsent : fetched (send_all user (set_innerHTML (getStyles ++ loading_html) w))
                    = (fetched w ++ [profile_url user; repos_url user; events_url user])%list).
    { unfold send_all, send. simpl. now rewrite <- !app_assoc. }
    destruct (fetched_records net user) as [[[profile repos] events] |];
      simpl; exact Hsent.
  - repeat constructor.
    + exists "". unfold profile_url, api. now rewrite append_nil_r.
    + eexists. unfold repos_url, api. reflexivity.
    + eexists. unfold events_url, api. reflexivity.
Qed.

(** X12: the search listener is in place after a pass exactly when the
    pass shows the page and [querySelector] finds an element of class
    [search] in it: [setupSearch] runs after the page is written, not after
    the failure text, and registers nothing where it finds no search box. *)
Theorem render_search_on_success (user : string) (w : World) :
  (searching (Contrib.render net now user w) = true
   <-> innerHTML (Contrib.render net now user w) <> getStyles ++ failed_html /\
       querySelector_search (innerHTML (Contrib.render net now user w)) = true) /\
  (searching (Activity.render net now user w) = true
   <-> innerHTML (Activity.render net now user w) <> getStyles ++ failed_html /\
       querySelector_search (innerHTML (Activity.render net now user w)) = true) /\
  (searching (Basic.render net now user w) = true
   <-> innerHTML (Basic.render net now user w) <> getStyles ++ failed_html /\
       querySelector_search (innerHTML (Basic.render net now user w)) = true).
Proof.
  split; [ | split ].
  - unfold Contrib.render.
    destruct (fetched_records net user) as [[[profile repos] events] |]; simpl.
    + split; [ intros Hfound; split; [ | exact Hfound ] | intros [_ Hfound]; exact Hfound ].
      apply page_not_failed. reflexivity.
    + split; [ discriminate | intros [Hne _]; now elim Hne ].
  - unfold Activity.render.
    destruct (fetched_records net user) as [[[profile repos] events] |]; simpl.
    + split; [ intros Hfound; split; [ | exact Hfound ] | intros [_ Hfound]; exact Hfound ].
      apply page_not_failed. reflexivity.
    + split; [ discriminate | intros [Hne _]; now elim Hne ].
  - unfold Basic.render.
    destruct (Basic.fetched_records net user) as [[profile repos] |]; simpl.
    + split; [ intros Hfound; split; [ | exact Hfound ] | intros [_ Hfound]; exact Hfound ].
      apply page_not_failed. reflexivity.
    + split; [ discriminate | intros [Hne _]; now elim Hne ].
Qed.

End RenderMore.

(** *** The sentences of the log, at the edges *)

Section EventsMore.

Context `{Host}.

Import Activity.

Lemma split_slash_free (s : string) :
  slash_free s = true -> split "/" s = [s].
Proof.
  induction s as [| c s IH]; [ reflexivity | ].
  cbn [slash_free split]. intros Hfree.
  apply andb_true_iff in Hfree. destruct Hfree as [Hc Hs].
  apply negb_true_iff in Hc. rewrite Hc, (IH Hs). reflexivity.
Qed.

Lemma split_at_slash (owner rest : string) :
  slash_free owner = true ->
  split "/" (owner ++ String "/" rest) = owner :: split "/" rest.
Proof.
  induction owner as [| c owner IH]; [ reflexivity | ].
  cbn [slash_free append split]. intros Hfree.
  apply andb_true_iff in Hfree. destruct Hfree as [Hc Ho].
  apply negb_true_iff in Hc. rewrite Hc, (IH Ho). reflexivity.
Qed.

Lemma truthy_append_slash (owner rest : string) :
  truthy (owner ++ "/" ++ rest) = true.
Proof. destruct owner; reflexivity. Qed.

(** X13: the name the log shows for a repository.  For [owner/name] it is
    [name], and the link goes to [https://github.com/owner/name]; for a full
    name without a slash, and for one that ends with its first slash, it is
    the full name. *)
Theorem repoName_of_full_name (event : Event) (owner name : string) :
  slash_free owner = true -> slash_free name = true ->
  (chain (repo event) ref_name = val (owner ++ "/" ++ name) ->
     name <> "" ->
     repoName event = name /\
     repoUrl event = "https://github.com/" ++ owner ++ "/" ++ name) /\
  (chain (repo event) ref_name = val (owner ++ "/") ->
     repoName event = owner ++ "/") /\
  (chain (repo event) ref_name = val name -> name <> "" ->
     repoName event = name).
Proof.
  intros Howner Hname. unfold repoUrl, repoName, repoFullName.
  split; [ | split ].
  - intros -> Hne. cbn [js_truthy js_show].
    rewrite truthy_append_slash.
    change (owner ++ "/" ++ name) with (owner ++ String "/" name).
    rewrite split_at_slash by exact Howner.
    rewrite (split_slash_free name Hname). cbn [nth_error].
    destruct name; [ contradiction | ]. split; reflexivity.
  - intros ->. cbn [js_truthy js_show].
    change (owner ++ "/") with (owner ++ "/" ++ "").
    rewrite truthy_append_slash.
    change (owner ++ "/" ++ "") with (owner ++ String "/" "").
    rewrite (split_at_slash owner "" Howner). reflexivity.
  - intros -> Hne. cbn [js_truthy js_show].
    destruct name as [| c name]; [ contradiction | ].
    cbn [truthy]. rewrite (split_slash_free _ Hname). reflexivity.
Qed.

Lemma repoLink_falsy (event : Event) :
  js_truthy (chain (repo event) ref_name) = false ->
  repoLink event = unknown_link.
Proof.
  intros Hfalsy. unfold repoLink, repoUrl, repoName, repoFullName.
  rewrite Hfalsy. reflexivity.
Qed.

(** X14: the repository is shown as [unknown], with a link to
    [https://github.com/unknown], whenever the event has no usable name: no
    [repo], a [null] one, or a [repo] whose [name] is absent, [null] or
    empty. *)
Theorem repoLink_unknown (event : Event) :
  (repo event = undefined \/ repo event = null \/
   exists r, repo event = val r /\
             (ref_name r = undefined \/ ref_name r = null \/ ref_name r = val "")) ->
  repoLink event = unknown_link /\
  Substring unknown_link (formatEventDescription event).
Proof.
  intros Hrepo.
  assert (Hlink : repoLink event = unknown_link).
  { apply repoLink_falsy.
    destruct Hrepo as [-> | [-> | (r & -> & Hname)]]; try reflexivity.
    cbn [chain]. destruct Hname as [-> | [-> | ->]]; reflexivity. }
  split; [ exact Hlink | ]. rewrite <- Hlink.
  unfold formatEventDescription.
  destruct (type event) as [| | t];
    [ apply Substring_end | apply Substring_end | apply sentence_links ].
Qed.

(** X15: an event without a payload still gets its sentence, and the parts
    that come from the payload are left out or print as [undefined]: no
    commit link, [Created repository], [Deleted undefined], an action-less
    [ issue in], [ PR in] and [ release in], no pull request link. *)
Theorem formatEventDescription_without_payload (event : Event) :
  payload event = undefined \/ payload event = null ->
  let link := repoLink event in
  let says := formatEventDescription event in
  (type event = val "PushEvent" -> says = "Pushed to " ++ link) /\
  (type event = val "CreateEvent" -> says = "Created repository " ++ link) /\
  (type event = val "DeleteEvent" ->
     says = "Deleted undefined <strong>undefined</strong> from " ++ link) /\
  (type event = val "IssuesEvent" -> says = " issue in " ++ link) /\
  (type event = val "PullRequestEvent" -> says = " PR in " ++ link) /\
  (type event = val "PullRequestReviewEvent" -> says = "Reviewed PR in " ++ link) /\
  (type event = val "PullRequestReviewCommentEvent" ->
     says = "Commented on PR in " ++ link) /\
  (type event = val "ReleaseEvent" -> says = " release in " ++ link).
Proof.
  intros Hpayload link says. unfold says, link, formatEventDescription, sentence.
  repeat match goal with |- _ /\ _ => split end;
    intros ->; cbn [String.eqb Ascii.eqb Bool.eqb];
    destruct Hpayload as [-> | ->];
    cbn [chain js_truthy js_show js_nonzero capitalize pull_link append];
    rewrite ?append_nil_r; reflexivity.
Qed.

Lemma substring_prefix (n : nat) (s : string) :
  exists rest, s = substring 0 n s ++ rest /\
               String.length (substring 0 n s) = Nat.min n (String.length s).
Proof.
  revert s. induction n as [| n IH]; intros s.
  - exists s. destruct s; split; reflexivity.
  - destruct s as [| c s]; [ exists ""; split; reflexivity | ].
    destruct (IH s) as (rest & Heq & Hlen).
    exists rest. cbn [substring append String.length Nat.min].
    split; [ now rewrite <- Heq | now rewrite Hlen ].
Qed.

(** X16: a push with a head commit is told with a link to the commit: the
    address carries the full hash, the text its first seven characters (all
    of it when it is shorter); a push whose head is absent, [null] or empty
    has no such link. *)
Theorem push_commit_link (event : Event) (p : Payload) :
  type event = val "PushEvent" -> payload event = val p ->
  (forall h, head p = val h -> h <> "" ->
     formatEventDescription event =
       "Pushed to " ++ repoLink event
       ++ commit_hash_link (repoUrl event) ("/commit/" ++ h) (substring 0 7 h) /\
     String.length (substring 0 7 h) = Nat.min 7 (String.length h) /\
     exists rest, h = substring 0 7 h ++ rest) /\
  (js_truthy (head p) = false ->
     formatEventDescription event = "Pushed to " ++ repoLink event).
Proof.
  intros Htype Hpayload. unfold formatEventDescription, sentence.
  rewrite Htype, Hpayload. cbn [String.eqb Ascii.eqb Bool.eqb chain].
  split.
  - intros h Hhead Hne. rewrite Hhead. cbn [chain js_truthy js_show].
    destruct (substring_prefix 7 h) as (rest & Heq & Hlen).
    destruct h as [| c h]; [ contradiction | ].
    cbn [substring truthy]. repeat split; [ exact Hlen | ].
    exists rest. exact Heq.
  - intros Hfalsy.
    destruct (head p) as [| | [| c h]]; try discriminate;
      cbn [chain js_truthy substring truthy]; now rewrite append_nil_r.
Qed.

End EventsMore.

(** The repository [octocat/Hello-World]. *)
Lemma repoName_of_full_name_witness :
  Activity.repoName Sample.watch = "Hello-World" /\
  Activity.repoUrl Sample.watch = "https://github.com/octocat/Hello-World".
Proof.
  apply (proj1 (repoName_of_full_name Sample.watch "octocat" "Hello-World"
                  eq_refl eq_refl)); [ reflexivity | discriminate ].
Defined.

(** The sample push has no [repo]. *)
Lemma repoLink_unknown_witness :
  Activity.repoLink Sample.push = unknown_link.
Proof.
  apply (proj1 (@repoLink_unknown Sample.host Sample.push (or_introl eq_refl))).
Defined.

(** The sample push has no payload either. *)
Lemma formatEventDescription_without_payload_witness :
  @Activity.formatEventDescription Sample.host Sample.push =
  "Pushed to " ++ Activity.repoLink Sample.push.
Proof.
  apply (proj1 (@formatEventDescription_without_payload Sample.host Sample.push
                  (or_introl eq_refl))).
  reflexivity.
Defined.

(** A push of commit 7fd1a60. *)
Lemma push_commit_link_witness :
  @Activity.formatEventDescription Sample.host Sample.pushed =
  "Pushed to " ++ Activity.repoLink Sample.pushed
  ++ Activity.commit_hash_link (Activity.repoUrl Sample.pushed)
       "/commit/7fd1a60b01f91b314f59955a4e4d4e80d8edf11d" "7fd1a60".
Proof.
  apply (proj1 (@push_commit_link Sample.host Sample.pushed _ eq_refl eq_refl)
           "7fd1a60b01f91b314f59955a4e4d4e80d8edf11d" eq_refl).
  discriminate.
Defined.

(** *** Colours, the log and the order of the cards *)

Section CardsMore.

Context `{Host}.

Lemma lookup_In (key : string) (table : list (string * string)) (v : string) :
  lookup key table = Some v -> In (key, v) table.
Proof.
  induction table as [| [k c] table IH]; simpl; [ discriminate | ].
  destruct (String.eqb_spec k key) as [-> | _].
  - intros [= ->]. now left.
  - intros Hfound. right. now apply IH.
Qed.

Lemma lookup_prototype (language : string) :
  In language Object_prototype -> lookup language LANG_COLORS = None.
Proof.
  intros Hin. simpl in Hin.
  repeat (destruct Hin as [<- | Hin]; [ reflexivity | ]).
  contradiction.
Qed.

Lemma get_prototype (language : string) :
  get language = inherited <-> In language Object_prototype.
Proof.
  unfold get. split.
  - destruct (lookup language LANG_COLORS); [ discriminate | ].
    destruct (existsb (String.eqb language) Object_prototype) eqn:Hfound;
      [ | discriminate ].
    intros _. apply existsb_exists in Hfound as (key & Hin & Heq).
    apply String.eqb_eq in Heq. now subst.
  - intros Hin. rewrite (lookup_prototype language Hin).
    replace (existsb (String.eqb language) Object_prototype) with true;
      [ reflexivity | ].
    symmetry. apply existsb_exists. exists language.
    split; [ exact Hin | apply String.eqb_refl ].
Qed.

(** X17: the dot of a language is coloured from the table: every language
    of [LANG_COLORS] gets the colour written beside it; any other language
    gets the grey [#8b949e], unless it is the name of a property that the
    table inherits from [Object.prototype], such as [constructor]: then the
    colour is the text of that property, as the host prints it.  For every
    language that is not such a name, the colour is [#] followed by six
    characters. *)
Theorem lang_color_table :
  (forall language colour,
     In (language, colour) LANG_COLORS -> lang_color language = colour) /\
  (forall language,
     ~ In language (map fst LANG_COLORS) -> ~ In language Object_prototype ->
     lang_color language = "#8b949e") /\
  (forall language,
     ~ In language Object_prototype -> is_colour (lang_color language) = true) /\
  (forall language,
     In language Object_prototype -> lang_color language = inherited_text language).
Proof.
  split; [ | split; [ | split ] ].
  - intros language colour Hin. simpl in Hin.
    repeat (destruct Hin as [Heq | Hin];
            [ injection Heq as <- <-; reflexivity | ]).
    contradiction.
  - intros language Hnot Hproto. unfold lang_color.
    destruct (get language) as [c | |] eqn:Hget; [ | | reflexivity ].
    + exfalso. apply Hnot. unfold get in Hget.
      destruct (lookup language LANG_COLORS) as [c' |] eqn:Hfound.
      * apply lookup_In in Hfound. exact (in_map fst _ _ Hfound).
      * destruct (existsb (String.eqb language) Object_prototype); discriminate.
    + exfalso. apply Hproto. now apply get_prototype.
  - intros language Hproto. unfold lang_color.
    destruct (get language) as [c | |] eqn:Hget; [ | | reflexivity ].
    + unfold get in Hget.
      destruct (lookup language LANG_COLORS) as [c' |] eqn:Hfound.
      * injection Hget as ->. apply lookup_In in Hfound.
        assert (Hall : forallb (fun kv => truthy (snd kv) && is_colour (snd kv))
                         LANG_COLORS = true) by reflexivity.
        rewrite forallb_forall in Hall. specialize (Hall _ Hfound).
        cbn [snd] in Hall. apply andb_true_iff in Hall.
        destruct Hall as [-> Hc]. exact Hc.
      * destruct (existsb (String.eqb language) Object_prototype); discriminate.
    + exfalso. apply Hproto. now apply get_prototype.
  - intros language Hin. unfold lang_color.
    now rewrite (proj2 (get_prototype language) Hin).
Qed.

(** X18: the log shows the first 30 events and counts them all: two lists
    of the same length that agree on their first 30 events give the same
    log. *)
Theorem buildActivityLog_first_30 (now : Z) (events events' : list Event) :
  firstn 30 events = firstn 30 events' ->
  List.length events = List.length events' ->
  Activity.buildActivityLog now events = Activity.buildActivityLog now events'.
Proof.
  intros Hfirst Hlen. unfold Activity.buildActivityLog.
  destruct events as [| e events], events' as [| e' events'];
    try discriminate; [ reflexivity | ].
  now rewrite Hfirst, Hlen.
Qed.

(** X19: given the repositories newest first, as the request asks the API
    to send them, [buildHTML] of every variant lists the cards in the order
    received, and the sort of [gitglue.js] and of the variant with the log
    leaves the array as it is. *)
Theorem buildHTML_sorted_input (now : Z) (profile : Profile)
  (repos : list Repo) :
  StronglySorted newer_first repos ->
  (forall contributions,
     snd (Contrib.buildHTML now profile repos contributions) = repos /\
     Substring (repos_section now repos)
       (fst (Contrib.buildHTML now profile repos contributions))) /\
  (forall events,
     snd (Activity.buildHTML now profile repos events) = repos /\
     Substring (repos_section now repos)
       (fst (Activity.buildHTML now profile repos events))) /\
  Substring (repos_section now repos) (Basic.buildHTML now profile repos).
Proof.
  intros Hsorted. pose proof (sort_sorted_id repos Hsorted) as Hid.
  split; [ | split ].
  - intros contributions. split.
    + unfold Contrib.buildHTML. cbn [snd]. exact Hid.
    + rewrite <- Hid at 1. apply contrib_section.
  - intros events. split.
    + unfold Activity.buildHTML. cbn [snd]. exact Hid.
    + rewrite <- Hid at 1. apply activity_section.
  - apply basic_section.
Qed.

(** X21: the card carries the description exactly as the API sent it,
    between [<p class="repo-desc">] and [</p>], and the name exactly as sent
    inside the link: nothing is escaped, so markup in either is markup of
    the page. *)
Theorem buildRepoCard_verbatim (now : Z) (repo : Repo) (d : string) :
  description repo = Some d -> d <> "" ->
  Substring (html "<p class='repo-desc'>" ++ d ++ "</p>") (buildRepoCard now repo) /\
  Substring (html "class='repo-name'>" ++ repo_name repo ++ "</a>")
    (buildRepoCard now repo).
Proof.
  intros Hdesc Hne. unfold buildRepoCard. rewrite Hdesc. cbn [or_empty].
  assert (Htruthy : truthy d = true) by (destruct d; [ contradiction | reflexivity ]).
  rewrite Htruthy. cbv zeta. split.
  - do 13 apply Substring_skip. apply Substring_head.
  - do 8 apply Substring_skip.
    eapply (Substring_mid (html "' target='_blank' rel='noopener' ")
              (html "class='repo-name'>") (repo_name repo) "</a>");
      reflexivity.
Qed.

Import Contrib.

Lemma hits_nonneg (d : Z) (weeks : list Week) : 0 <= hits d weeks.
Proof.
  unfold hits. induction weeks as [| w weeks IH]; simpl; [ lia | ].
  destruct (in_week d w); lia.
Qed.

(** A date that no week holds changes nothing. *)
Lemma count_event_miss (d : Z) (weeks : list Week) :
  hits d weeks = 0 -> count_event d weeks = weeks.
Proof.
  induction weeks as [| w weeks IH]; [ reflexivity | ].
  pose proof (hits_nonneg d weeks) as Hpos.
  unfold hits in *. cbn [fold_right count_event].
  destruct (in_week d w); intros Hsum; [ lia | ].
  f_equal. apply IH. lia.
Qed.

(** X20: with no event dated within the window of any of the twelve weeks,
    every week counts 0, the total is 0, the scale is 1, and every bar has
    the minimum height 2 and so starts at 58: [0 / 1 * 60] is a falsy 0,
    which [|| 2] replaces. *)
Theorem empty_chart (today : Z) (events : list Event) :
  Forall (fun e => hits (created_at e) (initial_weeks today) = 0) events ->
  let weeks := buildContributionData today events in
  totalEvents weeks = 0 /\
  maxCount weeks = 1 /\
  Forall (fun w => count w = 0 /\ bar (maxCount weeks) w = (2%float, 58%float))
    weeks.
Proof.
  intros Hnone weeks.
  assert (Hsame : weeks = initial_weeks today).
  { unfold weeks, buildContributionData.
    change (map (week_of today) (countdown 12)) with (initial_weeks today).
    induction Hnone as [| e events He Hall IH]; [ reflexivity | ].
    cbn [fold_left]. now rewrite (count_event_miss _ _ He). }
  rewrite Hsame.
  assert (Hmax : maxCount (initial_weeks today) = 1) by reflexivity.
  split; [ reflexivity | ]. split; [ exact Hmax | ].
  rewrite Hmax. unfold initial_weeks. apply Forall_map, Forall_forall.
  intros i _. split; reflexivity.
Qed.

End CardsMore.

(** Thirty pushes, then a star or an old event. *)
Lemma buildActivityLog_first_30_witness :
  @Activity.buildActivityLog Sample.host Sample.now
    (repeat Sample.pushed 30 ++ [Sample.watch]) =
  @Activity.buildActivityLog Sample.host Sample.now
    (repeat Sample.pushed 30 ++ [Sample.stale]).
Proof.
  apply (@buildActivityLog_first_30 Sample.host Sample.now); reflexivity.
Defined.

(** The sample repositories, the newer one first. *)
Lemma buildHTML_sorted_input_witness :
  snd (@Contrib.buildHTML Sample.host Sample.now Sample.profile
         [Sample.newer; Sample.older] []) = [Sample.newer; Sample.older].
Proof.
  assert (Hsorted : StronglySorted newer_first [Sample.newer; Sample.older])
    by (repeat constructor; unfold newer_first; simpl; lia).
  apply (proj1 (@buildHTML_sorted_input Sample.host Sample.now Sample.profile
                  [Sample.newer; Sample.older] Hsorted)).
Defined.

(** One event, two years old. *)
Lemma empty_chart_witness :
  Contrib.totalEvents
    (@Contrib.buildContributionData Sample.host Sample.now [Sample.stale]) = 0.
Proof.
  apply (proj1 (@empty_chart Sample.host Sample.now [Sample.stale]
                  ltac:(constructor; [ reflexivity | constructor ]))).
Defined.

(** The card of the first sample repository. *)
Lemma buildRepoCard_verbatim_witness :
  Substring
    (html "<p class='repo-desc'>This repo is for demonstration purposes only.</p>")
    (@buildRepoCard Sample.host Sample.now Sample.older).
Proof.
  apply (proj1 (@buildRepoCard_verbatim Sample.host Sample.now Sample.older
                  "This repo is for demonstration purposes only." eq_refl
                  ltac:(discriminate))).
Defined.
